(** * stock-predictor: the train / predict / convert pipeline of [model.py]

    A shallow embedding of [model.py] and the properties of its pipeline.

    - Python values are modelled as the script uses them: a forecast record
      is a [dict] from column name to cell (a [gmap]), the mapping returned
      by [convert] is an insertion-ordered [dict] (an association list with
      unique keys), [float]s are binary64 floats, [int]s are [Z], a date is
      its day ordinal.
    - Exceptions are an error type; code with side effects (files, standard
      output) is written in a small state-and-exception monad.
    - The third-party services (the market-data download and the Prophet
      model with its plots) are opaque: they are the fields of [World].
      Deterministic library functions on which the script's behaviour
      depends ([pathlib] joins, [datetime] arithmetic and formatting,
      [DataFrame.tail], [date_range]) are written out, for a POSIX system.
      The one exception is the text of a date before the year 1000 and
      what pandas reads from it, which differ between C libraries and
      parsers: they are a field of [World] as well.
    - The file system is a finite map from paths, compared as [pathlib]
      compares them, to directories and files; symbolic links and the
      resolution of [".."] are not modelled.  A stored artifact holds the
      model that was dumped: [joblib.load] of it returns that model.
      Rendering a figure is taken not to fail. *)

From Stdlib Require Import ZArith Ascii String List Lia PrimFloat.
From stdpp Require Import base option list gmap strings.

Local Open Scope string_scope.
Local Open Scope Z_scope.
Local Open Scope list_scope.

(** ** Exceptions *)

Inductive exn : Type :=
| KeyError (key : string)
| AttributeError
| TypeError
| ValueError
| OverflowError
| OutOfBoundsDatetime
| FileNotFoundError
| NotADirectoryError
| IsADirectoryError
| UnpicklingError.

(** [inl e] is "raise e", [inr v] is "return v". *)
Definition result (A : Type) : Type := (exn + A)%type.
Definition Ok {A} (a : A) : result A := inr a.
Definition Raise {A} (e : exn) : result A := inl e.

#[global] Instance result_ret : MRet result := @Ok.
#[global] Instance result_bind : MBind result := λ A B k r,
  match r with
  | inl e => inl e
  | inr a => k a
  end.

(** ** Calendar dates

    A date is its proleptic Gregorian ordinal ([date.toordinal()]:
    0001-01-01 is day 1).  The conversions follow CPython's [datetime]. *)

Module Calendar.

Definition is_leap (year : Z) : bool :=
  (year mod 4 =? 0) && (negb (year mod 100 =? 0) || (year mod 400 =? 0)).

Definition DAYS_IN_MONTH (month : Z) : Z :=
  match month with
  | 1 => 31 | 2 => 28 | 3 => 31 | 4 => 30 | 5 => 31 | 6 => 30
  | 7 => 31 | 8 => 31 | 9 => 30 | 10 => 31 | 11 => 30 | 12 => 31
  | _ => 0
  end.

Definition DAYS_BEFORE_MONTH (month : Z) : Z :=
  match month with
  | 1 => 0 | 2 => 31 | 3 => 59 | 4 => 90 | 5 => 120 | 6 => 151
  | 7 => 181 | 8 => 212 | 9 => 243 | 10 => 273 | 11 => 304 | 12 => 334
  | _ => 0
  end.

Definition days_before_year (year : Z) : Z :=
  let y := year - 1 in y * 365 + y / 4 - y / 100 + y / 400.

Definition days_before_month (year month : Z) : Z :=
  DAYS_BEFORE_MONTH month + (if (2 <? month) && is_leap year then 1 else 0).

Definition ymd2ord (year month day : Z) : Z :=
  days_before_year year + days_before_month year month + day.

Definition DI400Y : Z := 146097.
Definition DI100Y : Z := 36524.
Definition DI4Y : Z := 1461.

(** [ord2ymd n] is the (year, month, day) of ordinal [n]. *)
Definition ord2ymd (n : Z) : Z * Z * Z :=
  let n := n - 1 in
  let n400 := n / DI400Y in
  let n := n mod DI400Y in
  let year := n400 * 400 + 1 in
  let n100 := n / DI100Y in
  let n := n mod DI100Y in
  let n4 := n / DI4Y in
  let n := n mod DI4Y in
  let n1 := n / 365 in
  let n := n mod 365 in
  let year := year + n100 * 100 + n4 * 4 + n1 in
  if (n1 =? 4) || (n100 =? 4) then (year - 1, 12, 31)
  else
    let leapyear := (n1 =? 3) && (negb (n4 =? 24) || (n100 =? 3)) in
    let month := Z.shiftr (n + 50) 5 in
    let preceding :=
      DAYS_BEFORE_MONTH month + (if (2 <? month) && leapyear then 1 else 0) in
    if n <? preceding then
      let month := month - 1 in
      let preceding :=
        preceding
        - (DAYS_IN_MONTH month + (if (month =? 2) && leapyear then 1 else 0)) in
      (year, month, n - preceding + 1)
    else (year, month, n - preceding + 1).

(** [date.min] and [date.max] as ordinals, and the largest [timedelta]. *)
Definition MINORDINAL : Z := 1.
Definition MAXORDINAL : Z := 3652059.
Definition TIMEDELTA_MAX_DAYS : Z := 999999999.

(** [d + datetime.timedelta(days=n)]. *)
Definition date_add (d n : Z) : result Z :=
  if (Z.abs n <=? TIMEDELTA_MAX_DAYS) && (MINORDINAL <=? d + n) && (d + n <=? MAXORDINAL)
  then Ok (d + n)
  else Raise OverflowError.

Definition digit (d : Z) : ascii := ascii_of_nat (48 + Z.to_nat (d mod 10)).

Definition pad2 (n : Z) : string :=
  String (digit (n / 10)) (String (digit n) EmptyString).

Definition pad4 (n : Z) : string :=
  String (digit (n / 1000)) (String (digit (n / 100)) (pad2 n)).

(** [d.strftime("%m/%d/%Y")] *)
Definition strftime_mdY (d : Z) : string :=
  let '(y, m, dd) := ord2ymd d in
  pad2 m +:+ "/" +:+ pad2 dd +:+ "/" +:+ pad4 y.

(** [d.strftime("%Y-%m-%d")] *)
Definition strftime_Ymd (d : Z) : string :=
  let '(y, m, dd) := ord2ymd d in
  pad4 y +:+ "-" +:+ pad2 m +:+ "-" +:+ pad2 dd.

End Calendar.

(** ** Paths

    A path is the tuple [PurePosixPath.parts]: the root first, then one
    string per component.  [pathlib] compares paths by their parts, so
    equality of these lists is equality of [Path] objects.  Parsing a
    segment drops empty components and ["."]; [".."] is kept. *)

Module PosixPath.

Definition Path : Type := list string.

Definition slash : ascii := "/"%char.

(** [s.split("/")] *)
Fixpoint split_slash (s : string) : list string :=
  match s with
  | EmptyString => [EmptyString]
  | String c rest =>
      if Ascii.eqb c slash then EmptyString :: split_slash rest
      else match split_slash rest with
           | [] => [String c EmptyString]
           | w :: ws => String c w :: ws
           end
  end.

Definition kept_component (c : string) : bool :=
  negb (String.eqb c "") && negb (String.eqb c ".").

Definition components (seg : string) : list string :=
  List.filter kept_component (split_slash seg).

(** The root of an absolute segment: exactly two leading slashes are kept
    as the root ["//"], any other number collapses to ["/"]. *)
Definition root_of (seg : string) : option string :=
  match seg with
  | String c1 rest1 =>
      if Ascii.eqb c1 slash then
        match rest1 with
        | String c2 rest2 =>
            if Ascii.eqb c2 slash then
              match rest2 with
              | String c3 _ => if Ascii.eqb c3 slash then Some "/" else Some "//"
              | EmptyString => Some "//"
              end
            else Some "/"
        | EmptyString => Some "/"
        end
      else None
  | EmptyString => None
  end.

(** [Path(p).joinpath(seg)]: an absolute segment replaces [p]. *)
Definition joinpath (p : Path) (seg : string) : Path :=
  match root_of seg with
  | Some root => root :: components seg
  | None => p ++ components seg
  end.

(** [p.parent]: the root is its own parent. *)
Definition parent (p : Path) : Path :=
  match p with
  | [] | [_] => p
  | _ => removelast p
  end.

End PosixPath.

(** ** pandas *)

Module Pandas.

(** The first and last whole days a nanosecond-resolution [Timestamp]
    can hold: 1677-09-22 and 2262-04-11. *)
Definition TIMESTAMP_MIN : Z := Calendar.ymd2ord 1677 9 22.
Definition TIMESTAMP_MAX : Z := Calendar.ymd2ord 2262 4 11.

Definition to_timestamp (d : Z) : result Z :=
  if (TIMESTAMP_MIN <=? d) && (d <=? TIMESTAMP_MAX) then Ok d
  else Raise OutOfBoundsDatetime.

(** [pd.date_range(start, end)]: one timestamp per day from [start] to [end],
    both included; empty when [end] is before [start]. *)
Definition date_range (start end_ : Z) : result (list Z) :=
  s ← to_timestamp start;
  e ← to_timestamp end_;
  Ok (seqZ s (e - s + 1)).

(** [df.tail(n)] on the rows of a frame: [iloc[0:0]] for [n = 0], else
    [iloc[-n:]], which for a negative [n] drops the first [|n|] rows. *)
Definition tail {A} (n : Z) (rows : list A) : list A :=
  if n =? 0 then []
  else if 0 <? n then drop (length rows - Z.to_nat n) rows
  else drop (Z.to_nat (- n)) rows.

End Pandas.

(** ** Reading a date text

    [pd.date_range] reads the end of the grid from a text.  A text
    MM/DD/YYYY is read month first. *)

Definition digit_value (c : ascii) : option Z :=
  let n := Z.of_N (N_of_ascii c) in
  if (48 <=? n) && (n <=? 57) then Some (n - 48) else None.

Definition read2 (c1 c2 : ascii) : option Z :=
  a ← digit_value c1;
  b ← digit_value c2;
  Some (10 * a + b).

(** The day a text of the form MM/DD/YYYY names, month first. *)
Definition parse_mdY (s : string) : option Z :=
  match s with
  | String m1 (String m2 (String s1 (String d1 (String d2 (String s2
      (String y1 (String y2 (String y3 (String y4 EmptyString))))))))) =>
      if Ascii.eqb s1 PosixPath.slash && Ascii.eqb s2 PosixPath.slash then
        m ← read2 m1 m2;
        d ← read2 d1 d2;
        century ← read2 y1 y2;
        year ← read2 y3 y4;
        Some (Calendar.ymd2ord (100 * century + year) m d)
      else None
  | _ => None
  end.

(** ** Python objects *)

(** A cell of a forecast record. *)
Inductive cell : Type :=
| Timestamp (ordinal : Z)
| Float (x : float).

(** One forecast record, [Dict[str, float]]: column name to cell. *)
Abbreviation ForecastRecord := (gmap string cell).

(** An insertion-ordered [dict] with string keys: assigning to a key that
    is present replaces its value in place, a new key goes last. *)
Module Dict.

Definition t (V : Type) : Type := list (string * V).

Definition empty {V} : t V := [].

Fixpoint set {V} (k : string) (v : V) (d : t V) : t V :=
  match d with
  | [] => [(k, v)]
  | (k', v') :: d' =>
      if String.eqb k' k then (k, v) :: d' else (k', v') :: set k v d'
  end.

Fixpoint get {V} (k : string) (d : t V) : option V :=
  match d with
  | [] => None
  | (k', v') :: d' => if String.eqb k' k then Some v' else get k d'
  end.

Definition keys {V} (d : t V) : list string := fst <$> d.

End Dict.

Abbreviation PredictionMap := (Dict.t cell).

(** What the functions of the script return or receive. *)
Inductive pyobj : Type :=
| PyNone
| PyBool (b : bool)
| PyRecords (rows : list ForecastRecord).

(** [data[key]] *)
Definition getitem (data : ForecastRecord) (key : string) : result cell :=
  match data !! key with
  | Some v => Ok v
  | None => Raise (KeyError key)
  end.

(** [v.strftime("%m/%d/%Y")]: a [float] has no such method. *)
Definition strftime_mdY (v : cell) : result string :=
  match v with
  | Timestamp d => Ok (Calendar.strftime_mdY d)
  | Float _ => Raise AttributeError
  end.

(** ** convert *)

(** The loop of [convert], [output] being the dict built so far. *)
Fixpoint convert_loop (prediction_list : list ForecastRecord)
    (output : PredictionMap) : result PredictionMap :=
  match prediction_list with
  | [] => Ok output
  | data :: rest =>
      ds ← getitem data "ds";
      date ← strftime_mdY ds;
      trend ← getitem data "trend";
      convert_loop rest (Dict.set date trend output)
  end.

(** [for data in prediction_list] raises [TypeError] on [False] and [None]. *)
Definition convert (prediction_list : pyobj) : result PredictionMap :=
  match prediction_list with
  | PyRecords rows => convert_loop rows Dict.empty
  | PyBool _ | PyNone => Raise TypeError
  end.

(** ** Side effects

    A computation takes the state of the outside world and returns either
    a value or an exception, together with the state it leaves behind:
    what was written before an exception stays written. *)

Definition M (S A : Type) : Type := S → result A * S.

#[global] Instance M_ret {S} : MRet (M S) := λ A a st, (Ok a, st).
#[global] Instance M_bind {S} : MBind (M S) := λ A B k c st,
  match c st with
  | (inl e, st') => (inl e, st')
  | (inr a, st') => k a st'
  end.

Definition lift {S A} (r : result A) : M S A := λ st, (r, st).

(** One row of the downloaded price history. *)
Record PriceRow : Type := {
  Date : Z;
  Open : float;
  High : float;
  Low : float;
  Close : float;
  AdjClose : float;
  Volume : float;
}.

(** The parsed command line. *)
Record Namespace : Type := { ticker : string; days : Z }.


(** The fixed first day of the history, ["2020-01-01"]. *)
Definition START : Z := Calendar.ymd2ord 2020 1 1.

(** The environment the script runs in.  The fitted Prophet model and a
    rendered matplotlib figure are opaque, and so are the third-party
    calls; [BASE_DIR] and [TODAY] are module constants, evaluated once when
    the module is loaded.  What [strftime] prints for a year below 1000
    depends on the C library (glibc does not pad the year), and what
    pandas reads from such a text depends on its parser, which guesses
    the century of a short year: that part is left to the environment
    too. *)
Record World : Type := {
  Model : Type;
  Figure : Type;
  (** [Path(__file__).resolve(strict=True).parent] *)
  BASE_DIR : PosixPath.Path;
  (** [datetime.date.today()] *)
  TODAY : Z;
  (** [pd.Timestamp(d.strftime("%m/%d/%Y"))] for a date [d] before the
      year 1000 *)
  early_end : Z → result Z;
  (** [yf.download(ticker, start, end)] *)
  yf_download : string → string → string → result (list PriceRow);
  (** [model = Prophet(); model.fit(df)] on the rows [(ds, y)] *)
  prophet_fit : list (Z * float) → result Model;
  (** [model.predict(df)] on the column [ds] *)
  prophet_predict : Model → list Z → result (list ForecastRecord);
  (** [model.plot(forecast)] and [model.plot_components(forecast)],
      rendered *)
  plot : Model → list ForecastRecord → Figure;
  plot_components : Model → list ForecastRecord → Figure;
}.

(** What a path of the file system holds. *)
Inductive node (W : World) : Type :=
| Directory
| ModelFile (model : Model W)
| ImageFile (fig : Figure W).

Arguments Directory {W}.
Arguments ModelFile {W} model.
Arguments ImageFile {W} fig.

(** The outside world: the file system and what was printed so far. *)
Record state (W : World) : Type := {
  fs : gmap PosixPath.Path (node W);
  stdout : list PredictionMap;
}.

Arguments fs {W} s.
Arguments stdout {W} s.

Section Pipeline.

Variable W : World.

Definition MODEL_DIR : PosixPath.Path := PosixPath.joinpath (BASE_DIR W) "models".
Definition FIG_DIR : PosixPath.Path := PosixPath.joinpath (BASE_DIR W) "figures".

Definition set_fs (f : gmap PosixPath.Path (node W) → gmap PosixPath.Path (node W))
    (st : state W) : state W :=
  {| fs := f (fs st); stdout := stdout st |}.

(** [p.exists()] *)
Definition path_exists (p : PosixPath.Path) : M (state W) bool :=
  λ st, (Ok (bool_decide (is_Some (fs st !! p))), st).

(** Opening [p] for writing and writing [content]: the parent directory
    must exist, and [p] must not be a directory. *)
Definition write_file (p : PosixPath.Path) (content : node W) : M (state W) () :=
  λ st,
    match fs st !! p with
    | Some Directory => (Raise IsADirectoryError, st)
    | _ =>
        match fs st !! PosixPath.parent p with
        | Some Directory => (Ok (), set_fs <[p := content]> st)
        | Some _ => (Raise NotADirectoryError, st)
        | None => (Raise FileNotFoundError, st)
        end
    end.

(** [joblib.dump(model, p)] *)
Definition joblib_dump (model : Model W) (p : PosixPath.Path) : M (state W) () :=
  write_file p (ModelFile model).

(** [joblib.load(p)] *)
Definition joblib_load (p : PosixPath.Path) : M (state W) (Model W) :=
  λ st,
    match fs st !! p with
    | Some (ModelFile model) => (Ok model, st)
    | Some (ImageFile _) => (Raise UnpicklingError, st)
    | Some Directory => (Raise IsADirectoryError, st)
    | None => (Raise FileNotFoundError, st)
    end.

(** [fig.savefig(p)] *)
Definition savefig (fig : Figure W) (p : PosixPath.Path) : M (state W) () :=
  write_file p (ImageFile fig).

(** [print(output)] *)
Definition print (output : PredictionMap) : M (state W) () :=
  λ st, (Ok (), {| fs := fs st; stdout := stdout st ++ [output] |}).

(** [Path(MODEL_DIR).joinpath(f"{ticker}.joblib")] *)
Definition model_path (ticker : string) : PosixPath.Path :=
  PosixPath.joinpath MODEL_DIR (ticker +:+ ".joblib").

(** [Path(FIG_DIR).joinpath(f"{ticker}_plot.png")] *)
Definition plot_path (ticker : string) : PosixPath.Path :=
  PosixPath.joinpath FIG_DIR (ticker +:+ "_plot.png").

(** [Path(FIG_DIR).joinpath(f"{ticker}_plot_components.png")] *)
Definition plot_components_path (ticker : string) : PosixPath.Path :=
  PosixPath.joinpath FIG_DIR (ticker +:+ "_plot_components.png").

(** The two columns Prophet is fitted on: [ds] from [Date], [y] from
    [Adj Close]. *)
Definition prepare (data : list PriceRow) : list (Z * float) :=
  (λ row, (Date row, AdjClose row)) <$> data.

Definition train (ticker : string) : M (state W) pyobj :=
  data ← lift (yf_download W ticker "2020-01-01" (Calendar.strftime_Ymd (TODAY W)));
  let df_forecast := prepare data in
  model ← lift (prophet_fit W df_forecast);
  _ ← joblib_dump model (model_path ticker);
  mret PyNone.

(** The day pandas reads from the text [future.strftime("%m/%d/%Y")],
    the end of the grid.  From the year 1000 on the text is MM/DD/YYYY
    with the four digits of the year, and pandas reads it month first; a
    text it cannot read is a [ValueError]. *)
Definition end_of_grid (future : Z) : result Z :=
  if Calendar.ymd2ord 1000 1 1 <=? future then
    match parse_mdY (Calendar.strftime_mdY future) with
    | Some end_ => Ok end_
    | None => Raise ValueError
    end
  else early_end W future.

(** [predict] from the line after [model = joblib.load(model_file)] on. *)
Definition forecast_and_render (model : Model W) (ticker : string) (days : Z)
    : M (state W) pyobj :=
  future ← lift (Calendar.date_add (TODAY W) days);
  end_ ← lift (end_of_grid future);
  dates ← lift (Pandas.date_range START end_);
  forecast ← lift (prophet_predict W model dates);
  _ ← savefig (plot W model forecast) (plot_path ticker);
  _ ← savefig (plot_components W model forecast) (plot_components_path ticker);
  mret (PyRecords (Pandas.tail days forecast)).

Definition predict (ticker : string) (days : Z) : M (state W) pyobj :=
  let model_file := model_path ticker in
  found ← path_exists model_file;
  if negb found then mret (PyBool false)
  else
    model ← joblib_load model_file;
    forecast_and_render model ticker days.

(** The body of [if __name__ == "__main__"], after argument parsing. *)
Definition main (args : Namespace) : M (state W) () :=
  _ ← train (ticker args);
  prediction_list ← predict (ticker args) (days args);
  output ← lift (convert prediction_list);
  print output.

End Pipeline.

(** ** Vocabulary of the properties *)

(** A ticker that is a single path component: no ["/"] in it. *)
Fixpoint plain_ticker (ticker : string) : bool :=
  match ticker with
  | EmptyString => true
  | String c rest => negb (Ascii.eqb c PosixPath.slash) && plain_ticker rest
  end.

(** The key under which [convert] files a record, and the value it files. *)
Definition record_date (data : ForecastRecord) : option string :=
  match data !! "ds" with
  | Some (Timestamp d) => Some (Calendar.strftime_mdY d)
  | _ => None
  end.

Definition record_trend (data : ForecastRecord) : option cell := data !! "trend".

(** A forecast record has a timestamp under ["ds"] and a trend. *)
Definition forecast_record (data : ForecastRecord) : Prop :=
  is_Some (record_date data) ∧ is_Some (record_trend data).

Definition entry (data : ForecastRecord) : option (string * cell) :=
  date ← record_date data;
  trend ← record_trend data;
  Some (date, trend).

(** The dict [convert]'s loop builds from [output] when every record has
    its two fields (used to reason about [convert_loop]). *)
Fixpoint fill (rows : list ForecastRecord) (output : PredictionMap) : PredictionMap :=
  match rows with
  | [] => output
  | data :: rest =>
      match entry data with
      | Some (date, trend) => fill rest (Dict.set date trend output)
      | None => output
      end
  end.

(** The last record of [rows] that formats to [date]. *)
Definition last_with_date (date : string) (rows : list ForecastRecord)
    : option ForecastRecord :=
  last (List.filter (λ data, bool_decide (record_date data = Some date)) rows).

(** What the script relies on from Prophet, for the model it has loaded
    and the grid it has built: [predict] returns one row per date of the
    grid, in the order of the grid, with that date under ["ds"]. *)
Definition prophet_contract (W : World) (model : Model W) (dates : list Z) : Prop :=
  ∃ forecast,
    prophet_predict W model dates = Ok forecast
    ∧ Forall2 (λ d data, data !! "ds" = Some (Timestamp d)) dates forecast.

(** A file can be created or replaced at [p]. *)
Definition writable {W} (st : state W) (p : PosixPath.Path) : Prop :=
  fs st !! p ≠ Some Directory ∧ fs st !! PosixPath.parent p = Some Directory.

(** ** A small world to run the script in

    The download knows two symbols and returns an empty frame for any
    other; fitting needs two rows; the fitted model is the frame it was
    fitted on, and its forecast repeats the last price as the trend.  A
    date before the year 1000 is printed with its year padded and read
    as printed. *)

Module Demo.

Definition rows (base : float) : list PriceRow :=
  [ {| Date := Calendar.ymd2ord 2020 1 7; Open := base; High := base;
       Low := base; Close := base; AdjClose := base; Volume := 1000 |};
    {| Date := Calendar.ymd2ord 2020 1 8; Open := base; High := base;
       Low := base; Close := base; AdjClose := (base + 1)%float; Volume := 1200 |};
    {| Date := Calendar.ymd2ord 2020 1 9; Open := base; High := base;
       Low := base; Close := base; AdjClose := (base + 2)%float; Volume := 900 |} ].

Definition download (ticker start end_ : string) : result (list PriceRow) :=
  if String.eqb ticker "MSFT" then Ok (rows 370)
  else if String.eqb ticker "AAPL" then Ok (rows 190)
  else Ok [].

Definition fit (df : list (Z * float)) : result (list (Z * float)) :=
  if (length df <? 2)%nat then Raise ValueError else Ok df.

Definition forecast_row (model : list (Z * float)) (d : Z) : ForecastRecord :=
  {[ "ds" := Timestamp d; "trend" := Float (default 0%float (snd <$> last model)) ]}.

Definition forecast (model : list (Z * float)) (dates : list Z)
    : result (list ForecastRecord) :=
  match dates with
  | [] => Raise ValueError
  | _ => Ok (forecast_row model <$> dates)
  end.

Definition world : World := {|
  Model := list (Z * float);
  Figure := string * nat;
  BASE_DIR := ["/"; "srv"; "app"];
  TODAY := Calendar.ymd2ord 2020 1 10;
  early_end := λ d, Ok d;
  yf_download := download;
  prophet_fit := fit;
  prophet_predict := forecast;
  plot := λ _ fc, ("plot", length fc);
  plot_components := λ _ fc, ("components", length fc);
|}.

(** A fresh checkout: the two directories exist and are empty. *)
Definition fresh : state world := {|
  fs := {[ ["/"] := Directory;
           ["/"; "srv"] := Directory;
           ["/"; "srv"; "app"] := Directory;
           ["/"; "srv"; "app"; "models"] := Directory;
           ["/"; "srv"; "app"; "figures"] := Directory ]};
  stdout := [];
|}.

(** The models fitted on the two downloads. *)
Definition msft_model : list (Z * float) := prepare (rows 370).
Definition aapl_model : list (Z * float) := prepare (rows 190).

(** [st] with [model] stored as the artifact of [ticker]. *)
Definition with_artifact (ticker : string) (model : list (Z * float))
    (st : state world) : state world :=
  set_fs world <[ model_path world ticker := ModelFile (W := world) model ]> st.

(** The fresh checkout with the fitted artifact of either symbol. *)
Definition trained_msft : state world := with_artifact "MSFT" msft_model fresh.
Definition trained_aapl : state world := with_artifact "AAPL" aapl_model fresh.

(** A checkout with a stale artifact for MSFT, fitted on other data. *)
Definition stale : state world :=
  with_artifact "MSFT" [(1, 1%float); (2, 2%float)] fresh.

(** The forecast of the MSFT model over the first [n] days of the grid. *)
Definition msft_forecast (n : Z) : list ForecastRecord :=
  forecast_row msft_model <$> seqZ START n.

Definition record (d : Z) (trend : float) : ForecastRecord :=
  {[ "ds" := Timestamp d; "trend" := Float trend ]}.

End Demo.

(** ** Vocabulary of the further properties *)

(** The month and the day of the [n]-th day of a year, counted from 0:
    the last part of [Calendar.ord2ymd]. *)
Definition month_day (leapyear : bool) (n : Z) : Z * Z :=
  let month := Z.shiftr (n + 50) 5 in
  let preceding :=
    Calendar.DAYS_BEFORE_MONTH month + (if (2 <? month) && leapyear then 1 else 0) in
  if n <? preceding then
    let month := month - 1 in
    let preceding :=
      preceding
      - (Calendar.DAYS_IN_MONTH month + (if (month =? 2) && leapyear then 1 else 0)) in
    (month, n - preceding + 1)
  else (month, n - preceding + 1).

(** [month_day] gives a month and a day of the calendar, and the day is
    the [n]-th of its year. *)
Definition month_day_ok (leapyear : bool) (n : Z) : bool :=
  let '(month, day) := month_day leapyear n in
  (1 <=? month) && (month <=? 12) && (1 <=? day) && (day <=? 31)
  && (Calendar.DAYS_BEFORE_MONTH month
      + (if (2 <? month) && leapyear then 1 else 0) + day =? n + 1).

(** A day that a pandas timestamp can hold. *)
Definition timestamp_day (d : Z) : Prop :=
  Pandas.TIMESTAMP_MIN ≤ d ≤ Pandas.TIMESTAMP_MAX.

(** What [convert] needs from Prophet besides the dates: every row of
    the forecast of the model over the grid has a trend. *)
Definition prophet_rows_have_trend (W : World) (model : Model W) (dates : list Z)
    : Prop :=
  ∀ forecast,
    prophet_predict W model dates = Ok forecast →
    Forall (λ data : ForecastRecord, is_Some (data !! "trend")) forecast.

(** The inference of [predict], between loading the model and saving the
    figures: the forecast of [model] over the grid up to [today + days]. *)
Definition forecast_for (W : World) (model : Model W) (days : Z)
    : result (list ForecastRecord) :=
  future ← Calendar.date_add (TODAY W) days;
  end_ ← end_of_grid W future;
  dates ← Pandas.date_range START end_;
  prophet_predict W model dates.

(** The exception [convert] raises on a record that lacks a field. *)
Definition record_error (data : ForecastRecord) : exn :=
  match data !! "ds" with
  | None => KeyError "ds"
  | Some (Float _) => AttributeError
  | Some (Timestamp _) => KeyError "trend"
  end.

(** ** Further states of the small world *)

Module Scenario.

(** A checkout without the [models] directory. *)
Definition no_models : state Demo.world := {|
  fs := {[ ["/"] := Directory;
           ["/"; "srv"] := Directory;
           ["/"; "srv"; "app"] := Directory;
           ["/"; "srv"; "app"; "figures"] := Directory ]};
  stdout := [];
|}.

(** A checkout with the MSFT artifact but without the [figures]
    directory. *)
Definition no_figures : state Demo.world :=
  Demo.with_artifact "MSFT" Demo.msft_model {|
    fs := {[ ["/"] := Directory;
             ["/"; "srv"] := Directory;
             ["/"; "srv"; "app"] := Directory;
             ["/"; "srv"; "app"; "models"] := Directory ]};
    stdout := [];
  |}.

(** The trained checkout with a directory where the components image of
    MSFT goes. *)
Definition blocked : state Demo.world :=
  set_fs Demo.world
    <[ plot_components_path Demo.world "MSFT" := Directory ]> Demo.trained_msft.

(** The fresh checkout with an artifact for the ticker ["/srv/x"], which
    [pathlib] puts at [/srv/x.joblib]. *)
Definition escaped : state Demo.world :=
  Demo.with_artifact "/srv/x" Demo.msft_model Demo.fresh.

End Scenario.

(** * Properties *)

(** ** The calendar and the path model on concrete values *)

Example ymd2ord_2020_01_01 : START = 737425.
Proof. reflexivity. Qed.

Example strftime_leap_day :
  Calendar.strftime_Ymd (Calendar.ymd2ord 2024 2 29) = "2024-02-29"
  ∧ Calendar.strftime_mdY (Calendar.ymd2ord 2024 2 29 + 1) = "03/01/2024"
  ∧ Calendar.strftime_Ymd (Calendar.ymd2ord 2023 12 31) = "2023-12-31"
  ∧ Calendar.ord2ymd Calendar.MAXORDINAL = (9999, 12, 31).
Proof. repeat split; reflexivity. Qed.

Example joinpath_examples :
  PosixPath.joinpath ["/"; "srv"] "a/b.txt" = ["/"; "srv"; "a"; "b.txt"]
  ∧ PosixPath.joinpath ["/"; "srv"] "./a//b.txt" = ["/"; "srv"; "a"; "b.txt"]
  ∧ PosixPath.joinpath ["/"; "srv"] "../b.txt" = ["/"; "srv"; ".."; "b.txt"]
  ∧ PosixPath.joinpath ["/"; "srv"] "/tmp/b.txt" = ["/"; "tmp"; "b.txt"]
  ∧ PosixPath.joinpath ["/"; "srv"] "//tmp/b.txt" = ["//"; "tmp"; "b.txt"].
Proof. repeat split; reflexivity. Qed.

Example tail_examples :
  Pandas.tail 2 [1; 2; 3; 4; 5] = [4; 5]
  ∧ Pandas.tail 0 [1; 2; 3] = []
  ∧ Pandas.tail 9 [1; 2; 3] = [1; 2; 3]
  ∧ Pandas.tail (-2) [1; 2; 3; 4; 5] = [3; 4; 5].
Proof. repeat split; reflexivity. Qed.

(** ** Strings and paths *)

Section PathFacts.

Implicit Types (s t : string) (p : PosixPath.Path).

Lemma string_app_length s t :
  String.length (s +:+ t) = (String.length s + String.length t)%nat.
Proof. induction s as [|c s IH]; simpl; [done|]. by rewrite IH. Qed.

Lemma string_app_inv_tail s t1 t2 : t1 +:+ s = t2 +:+ s → t1 = t2.
Proof.
  revert t2. induction t1 as [|c1 t1 IH]; intros [|c2 t2] Heq.
  - done.
  - apply (f_equal String.length) in Heq.
    rewrite !string_app_length in Heq. simpl in Heq. lia.
  - apply (f_equal String.length) in Heq.
    rewrite !string_app_length in Heq. simpl in Heq. lia.
  - cbn in Heq. injection Heq as -> Heq. f_equal. by apply IH.
Qed.

Lemma plain_ticker_app s t :
  plain_ticker (s +:+ t) = plain_ticker s && plain_ticker t.
Proof.
  induction s as [|c s IH]; simpl; [done|].
  rewrite IH. by rewrite andb_assoc.
Qed.

Lemma kept_component_long s :
  (2 ≤ String.length s)%nat → PosixPath.kept_component s = true.
Proof.
  destruct s as [|c1 [|c2 s]]; simpl; intros Hlen; [exfalso; lia..|].
  unfold PosixPath.kept_component. simpl.
  by destruct (Ascii.eqb c1 "."%char).
Qed.

Lemma split_slash_plain t :
  plain_ticker t = true → PosixPath.split_slash t = [t].
Proof.
  induction t as [|c t IH]; simpl; [done|].
  intros [Hc Ht]%andb_prop. apply negb_true_iff in Hc.
  by rewrite Hc, IH.
Qed.

(** Appending a suffix without ["/"] extends the last component only. *)
Lemma split_slash_app t :
  ∃ pre x,
    PosixPath.split_slash t = pre ++ [x]
    ∧ ∀ s, plain_ticker s = true →
        PosixPath.split_slash (t +:+ s) = pre ++ [x +:+ s].
Proof.
  induction t as [|c t (pre & x & Ht & Hts)].
  - exists [], "". split; [done|]. intros s Hs. cbn.
    by apply split_slash_plain.
  - simpl. destruct (Ascii.eqb c PosixPath.slash).
    + exists ("" :: pre), x. split; [by rewrite Ht|].
      intros s Hs. by rewrite Hts.
    + destruct pre as [|w ws].
      * exists [], (String c x). split; [by rewrite Ht|].
        intros s Hs. by rewrite Hts.
      * exists (String c w :: ws), x. split; [by rewrite Ht|].
        intros s Hs. by rewrite Hts.
Qed.

Lemma components_app t :
  ∃ dirs x,
    ∀ s, plain_ticker s = true → (2 ≤ String.length s)%nat →
      PosixPath.components (t +:+ s) = dirs ++ [x +:+ s].
Proof.
  destruct (split_slash_app t) as (pre & x & _ & Hts).
  exists (List.filter PosixPath.kept_component pre), x. intros s Hs Hlen.
  unfold PosixPath.components. rewrite Hts by done.
  rewrite List.filter_app. simpl.
  rewrite kept_component_long; [done|].
  rewrite string_app_length. lia.
Qed.

Lemma root_of_plain t s :
  plain_ticker t = true → plain_ticker s = true → s ≠ "" →
  PosixPath.root_of (t +:+ s) = None.
Proof.
  intros Ht Hs Hne. destruct t as [|c t]; simpl in *.
  - destruct s as [|c s]; [done|]. simpl in *.
    apply andb_prop in Hs as [Hc _]. apply negb_true_iff in Hc. by rewrite Hc.
  - apply andb_prop in Ht as [Hc _]. apply negb_true_iff in Hc. by rewrite Hc.
Qed.

(** For a ticker without ["/"] the path is the directory followed by the
    one file name. *)
Lemma joinpath_plain p t s :
  plain_ticker t = true → plain_ticker s = true → (2 ≤ String.length s)%nat →
  PosixPath.joinpath p (t +:+ s) = p ++ [t +:+ s].
Proof.
  intros Ht Hs Hlen. unfold PosixPath.joinpath.
  rewrite root_of_plain; [|done..|intros ->; simpl in Hlen; lia].
  unfold PosixPath.components.
  rewrite split_slash_plain by (rewrite plain_ticker_app, Ht, Hs; done).
  simpl. rewrite kept_component_long; [done|].
  rewrite string_app_length. lia.
Qed.

Lemma joinpath_plain_inj p t1 t2 s :
  plain_ticker t1 = true → plain_ticker t2 = true →
  plain_ticker s = true → (2 ≤ String.length s)%nat →
  PosixPath.joinpath p (t1 +:+ s) = PosixPath.joinpath p (t2 +:+ s) →
  t1 = t2.
Proof.
  intros Ht1 Ht2 Hs Hlen. rewrite !joinpath_plain by done.
  intros [= Heq]%app_inv_head. by apply string_app_inv_tail in Heq.
Qed.

End PathFacts.

(** ** The insertion-ordered dict *)

Section DictFacts.

Context {V : Type}.
Implicit Types (d : Dict.t V) (k : string) (v : V).

Lemma dict_get_set_eq k v d : Dict.get k (Dict.set k v d) = Some v.
Proof.
  induction d as [|[k' v'] d IH]; simpl.
  - by rewrite String.eqb_refl.
  - destruct (String.eqb_spec k' k) as [->|Hne]; simpl.
    + by rewrite String.eqb_refl.
    + by destruct (String.eqb_spec k' k).
Qed.

Lemma dict_get_set_ne k k' v d :
  k ≠ k' → Dict.get k' (Dict.set k v d) = Dict.get k' d.
Proof.
  intros Hne. induction d as [|[k0 v0] d IH]; simpl.
  - by destruct (String.eqb_spec k k').
  - destruct (String.eqb_spec k0 k) as [->|Hk0]; simpl.
    + by destruct (String.eqb_spec k k').
    + by rewrite IH.
Qed.

Lemma dict_keys_set_new k v d :
  k ∉ Dict.keys d → Dict.keys (Dict.set k v d) = Dict.keys d ++ [k].
Proof.
  unfold Dict.keys. induction d as [|[k0 v0] d IH]; simpl; intros Hk; [done|].
  apply not_elem_of_cons in Hk as [Hne Hk].
  destruct (String.eqb_spec k0 k) as [->|_]; [done|].
  simpl. f_equal. by apply IH.
Qed.

Lemma dict_keys_set_old k v d :
  k ∈ Dict.keys d → Dict.keys (Dict.set k v d) = Dict.keys d.
Proof.
  unfold Dict.keys. induction d as [|[k0 v0] d IH]; simpl; intros Hk.
  - by apply elem_of_nil in Hk.
  - destruct (String.eqb_spec k0 k) as [->|Hne]; [done|].
    simpl. f_equal. apply IH.
    apply elem_of_cons in Hk as [->|Hk]; [done|exact Hk].
Qed.

Lemma dict_length_keys d : length (Dict.keys d) = length d.
Proof. unfold Dict.keys. apply length_fmap. Qed.

End DictFacts.

(** ** convert *)

Section ConvertFacts.

Implicit Types (data : ForecastRecord) (rows : list ForecastRecord).
Implicit Types (output : PredictionMap) (date : string).

Lemma forecast_record_entry data :
  forecast_record data →
  ∃ date trend,
    record_date data = Some date ∧ record_trend data = Some trend
    ∧ entry data = Some (date, trend).
Proof.
  intros [[date Hd] [trend Ht]]. exists date, trend.
  unfold entry. rewrite Hd, Ht. done.
Qed.

Lemma convert_loop_step data rest output date trend :
  record_date data = Some date →
  record_trend data = Some trend →
  convert_loop (data :: rest) output
  = convert_loop rest (Dict.set date trend output).
Proof.
  unfold record_date, record_trend. intros Hd Ht. simpl.
  unfold getitem. rewrite Ht.
  destruct (data !! "ds") as [[d|x]|]; [|done..].
  by injection Hd as <-.
Qed.

Lemma convert_loop_fill rows output :
  Forall forecast_record rows →
  convert_loop rows output = Ok (fill rows output).
Proof.
  intros Hrows. revert output.
  induction Hrows as [|data rest Hdata _ IH]; intros output; [done|].
  destruct (forecast_record_entry data Hdata) as (date & trend & Hd & Ht & He).
  rewrite (convert_loop_step _ _ _ _ _ Hd Ht). simpl. rewrite He. apply IH.
Qed.

Lemma last_with_date_cons date data rows :
  last_with_date date (data :: rows)
  = match last_with_date date rows with
    | Some later => Some later
    | None => if bool_decide (record_date data = Some date) then Some data else None
    end.
Proof.
  unfold last_with_date. simpl.
  destruct (bool_decide (record_date data = Some date)); [|by destruct (last _)].
  apply last_cons.
Qed.

Lemma fill_get rows output date :
  Forall forecast_record rows →
  Dict.get date (fill rows output)
  = match last_with_date date rows with
    | Some data => record_trend data
    | None => Dict.get date output
    end.
Proof.
  intros Hrows. revert output.
  induction Hrows as [|data rest Hdata _ IH]; intros output; [done|].
  destruct (forecast_record_entry data Hdata) as (k & trend & Hd & Ht & He).
  simpl. rewrite He, IH, last_with_date_cons.
  destruct (last_with_date date rest); [done|].
  rewrite Hd. case_bool_decide as Hk.
  - injection Hk as ->. by rewrite dict_get_set_eq.
  - apply dict_get_set_ne. congruence.
Qed.

Lemma fill_keys_NoDup rows output :
  NoDup (Dict.keys output) → NoDup (Dict.keys (fill rows output)).
Proof.
  revert output. induction rows as [|data rest IH]; intros output Hnd; [done|].
  simpl. destruct (entry data) as [[date trend]|]; [|done].
  apply IH. destruct (decide (date ∈ Dict.keys output)) as [Hin|Hout].
  - by rewrite dict_keys_set_old.
  - rewrite dict_keys_set_new by done.
    apply NoDup_app. split_and!; [done| |apply NoDup_singleton].
    intros k Hk Hk'%list_elem_of_singleton. by subst.
Qed.

Lemma fill_keys_elem_of rows output k :
  Forall forecast_record rows →
  k ∈ Dict.keys (fill rows output) →
  k ∈ Dict.keys output ∨ Some k ∈ record_date <$> rows.
Proof.
  intros Hrows. revert output.
  induction Hrows as [|data rest Hdata _ IH]; intros output; [by left|].
  destruct (forecast_record_entry data Hdata) as (date & trend & Hd & Ht & He).
  cbn [fill]. rewrite He. intros [Hk|Hk]%IH.
  - destruct (decide (date ∈ Dict.keys output)) as [Hin|Hout].
    + rewrite dict_keys_set_old in Hk by done. by left.
    + rewrite dict_keys_set_new in Hk by done.
      apply elem_of_app in Hk as [Hk|Hk%list_elem_of_singleton]; [by left|].
      subst k. right. rewrite fmap_cons, Hd. apply list_elem_of_here.
  - right. rewrite fmap_cons. by apply list_elem_of_further.
Qed.

Lemma fill_keys_fresh rows output dates :
  Forall forecast_record rows →
  record_date <$> rows = Some <$> dates →
  NoDup (Dict.keys output ++ dates) →
  Dict.keys (fill rows output) = Dict.keys output ++ dates.
Proof.
  intros Hrows. revert output dates.
  induction Hrows as [|data rest Hdata _ IH]; intros output dates Hdates Hnd.
  - destruct dates; [|done]. simpl. by rewrite app_nil_r.
  - destruct (forecast_record_entry data Hdata) as (date & trend & Hd & Ht & He).
    destruct dates as [|date' dates]; [done|].
    rewrite !fmap_cons, Hd in Hdates. injection Hdates as <- Hdates.
    cbn [fill]. rewrite He.
    assert (date ∉ Dict.keys output) as Hout.
    { apply NoDup_app in Hnd as (_ & Hdisj & _). intros Hin.
      apply (Hdisj _ Hin). apply list_elem_of_here. }
    rewrite (IH _ dates); [| done |].
    + rewrite dict_keys_set_new by done. by rewrite <-app_assoc.
    + rewrite dict_keys_set_new by done. by rewrite <-app_assoc.
Qed.

Lemma last_with_date_None date rows :
  last_with_date date rows = None ↔
  Forall (λ data, record_date data ≠ Some date) rows.
Proof.
  induction rows as [|data rest IH].
  - split; [constructor|done].
  - rewrite last_with_date_cons, Forall_cons, <-IH.
    destruct (last_with_date date rest); [by split; [|intros [_ ?]]|].
    case_bool_decide; by split; [|intros [? _]].
Qed.

Lemma last_with_date_split date before data after :
  record_date data = Some date →
  Forall (λ later, record_date later ≠ Some date) after →
  last_with_date date (before ++ data :: after) = Some data.
Proof.
  intros Hd Hafter. induction before as [|data' before IH].
  - simpl. rewrite last_with_date_cons.
    apply last_with_date_None in Hafter. rewrite Hafter.
    by rewrite bool_decide_eq_true_2.
  - simpl. rewrite last_with_date_cons. by rewrite IH.
Qed.

Lemma last_with_date_Some date rows final :
  last_with_date date rows = Some final →
  ∃ before after,
    rows = before ++ final :: after
    ∧ record_date final = Some date
    ∧ Forall (λ later, record_date later ≠ Some date) after.
Proof.
  induction rows as [|data rest IH]; [done|].
  rewrite last_with_date_cons.
  destruct (last_with_date date rest) as [later|] eqn:Hrest.
  - intros [= ->]. destruct IH as (before & after & -> & Hd & Hafter); [done|].
    by exists (data :: before), after.
  - case_bool_decide as Hd; [|done]. intros [= ->].
    exists [], rest. split_and!; [done..|]. by apply last_with_date_None.
Qed.

(** A list without duplicates whose elements all occur in a list with a
    duplicate is strictly shorter. *)
Lemma NoDup_length_lt_duplicate {A} (l k : list A) (i j : nat) (x : A) :
  NoDup l → (∀ y, y ∈ l → y ∈ k) →
  (i < j)%nat → k !! i = Some x → k !! j = Some x →
  (length l < length k)%nat.
Proof.
  intros Hnd Hsub Hij Hi Hj.
  assert (length l ≤ length (delete i k))%nat as Hle.
  { apply submseteq_length, NoDup_submseteq; [done|].
    intros y [n Hn]%Hsub%list_elem_of_lookup.
    apply list_elem_of_lookup.
    destruct (decide (n < i)%nat) as [Hlt|Hge].
    - exists n. by rewrite list_lookup_delete_lt.
    - destruct (decide (n = i)) as [->|Hne].
      + exists (pred j). rewrite list_lookup_delete_ge by lia.
        replace (S (pred j)) with j by lia. congruence.
      + exists (pred n). rewrite list_lookup_delete_ge by lia.
        by replace (S (pred n)) with n by lia. }
  rewrite length_delete in Hle by eauto.
  apply lookup_lt_Some in Hi. lia.
Qed.

End ConvertFacts.

(** C4. [convert] applied to the empty sequence of forecast records returns
    the empty mapping. *)
Theorem convert_empty : convert (PyRecords []) = Ok Dict.empty.
Proof. reflexivity. Qed.

(** C3, as the claim states it, fails: of two records that format to the
    same date, the earlier one's date is not mapped to its own trend. *)
Lemma convert_earlier_duplicate_not_own_trend :
  ¬ (∀ (rows : list ForecastRecord) data date output,
       Forall forecast_record rows →
       data ∈ rows →
       record_date data = Some date →
       convert (PyRecords rows) = Ok output →
       Dict.get date output = record_trend data).
Proof.
  intros Hclaim.
  pose (d := Calendar.ymd2ord 2024 1 1).
  specialize (Hclaim [Demo.record d 1; Demo.record d 2] (Demo.record d 1)
                "01/01/2024" [("01/01/2024", Float 2)]).
  assert (Some (Float 2) = Some (Float 1)) as Heq.
  { apply Hclaim.
    - repeat constructor; by eexists.
    - apply list_elem_of_here.
    - reflexivity.
    - reflexivity. }
  apply (f_equal (λ v, match v with
                       | Some (Float x) => PrimFloat.eqb x 1
                       | _ => true
                       end)) in Heq.
  vm_compute in Heq. discriminate Heq.
Qed.

(** C3, amended. For every list of forecast records, [convert] succeeds and
    maps the formatted date (MM/DD/YYYY) of each record to the trend of
    that record, unless a later record formats to the same date; in
    general it maps a date to the trend of the last record that formats to
    it.  [convert] is a function of its argument alone: run inside the
    script it leaves the outside world as it was.  On the literal example
    the result is ["01/01/2024" -> 100.5]. *)
Theorem convert_maps_date_to_trend :
  (∀ rows : list ForecastRecord,
     Forall forecast_record rows →
     ∃ output,
       convert (PyRecords rows) = Ok output
       ∧ (∀ before data after date,
            rows = before ++ data :: after →
            record_date data = Some date →
            Forall (λ later, record_date later ≠ Some date) after →
            Dict.get date output = record_trend data)
       ∧ (∀ date, Dict.get date output = last_with_date date rows ≫= record_trend)
       ∧ (∀ W (st : state W),
            lift (convert (PyRecords rows)) st = (Ok output, st)))
  ∧ convert (PyRecords [ {[ "ds" := Timestamp (Calendar.ymd2ord 2024 1 1);
                            "trend" := Float 100.5 ]} ])
    = Ok [("01/01/2024", Float 100.5)].
Proof.
  split; [|reflexivity].
  intros rows Hrows. exists (fill rows Dict.empty).
  assert (convert (PyRecords rows) = Ok (fill rows Dict.empty)) as Hconv
    by by apply convert_loop_fill.
  split_and!.
  - done.
  - intros before data after date -> Hd Hafter.
    rewrite fill_get by done. by rewrite last_with_date_split.
  - intros date. rewrite fill_get by done.
    by destruct (last_with_date date rows).
  - intros W st. unfold lift. by rewrite Hconv.
Qed.

(** Two records on consecutive days. *)
Lemma convert_maps_date_to_trend_witness :
  ∃ output,
    convert (PyRecords [Demo.record 738886 100.5; Demo.record 738887 101]) = Ok output
    ∧ Dict.get "01/02/2024" output = Some (Float 101).
Proof.
  destruct (proj1 convert_maps_date_to_trend
              [Demo.record 738886 100.5; Demo.record 738887 101])
    as (output & Hconv & Hown & Hget & _).
  - repeat constructor; by eexists.
  - exists output. split; [done|]. by rewrite Hget.
Defined.

(** C9. For every list of forecast records whose formatted dates are
    pairwise distinct, the keys of the mapping [convert] returns are, in
    insertion order, the formatted dates of the records in input order. *)
Theorem convert_keeps_forecast_order (rows : list ForecastRecord) (dates : list string) :
  Forall forecast_record rows →
  record_date <$> rows = Some <$> dates →
  NoDup dates →
  ∃ output,
    convert (PyRecords rows) = Ok output ∧ Dict.keys output = dates.
Proof.
  intros Hrows Hdates Hnd. exists (fill rows Dict.empty). split.
  - by apply convert_loop_fill.
  - by rewrite (fill_keys_fresh rows Dict.empty dates).
Qed.

(** Three records, not in calendar order. *)
Lemma convert_keeps_forecast_order_witness :
  ∃ output,
    convert (PyRecords [Demo.record 738887 3; Demo.record 738886 1; Demo.record 738888 2])
    = Ok output
    ∧ Dict.keys output = ["01/02/2024"; "01/01/2024"; "01/03/2024"].
Proof.
  apply (convert_keeps_forecast_order
           [Demo.record 738887 3; Demo.record 738886 1; Demo.record 738888 2]
           ["01/02/2024"; "01/01/2024"; "01/03/2024"]).
  - repeat constructor; by eexists.
  - reflexivity.
  - compute_done.
Defined.

(** C10. When two records of the input format to the same date, [convert]
    keeps one entry for that date, holding the trend of the last record
    that formats to it, and the mapping has strictly fewer entries than
    the input has records. *)
Theorem convert_duplicate_dates_keep_last
    (rows : list ForecastRecord) (i j : nat) (first second : ForecastRecord)
    (date : string) :
  Forall forecast_record rows →
  (i < j)%nat →
  rows !! i = Some first →
  rows !! j = Some second →
  record_date first = Some date →
  record_date second = Some date →
  ∃ output before final after,
    convert (PyRecords rows) = Ok output
    ∧ rows = before ++ final :: after
    ∧ record_date final = Some date
    ∧ Forall (λ later, record_date later ≠ Some date) after
    ∧ Dict.get date output = record_trend final
    ∧ NoDup (Dict.keys output)
    ∧ (length output < length rows)%nat.
Proof.
  intros Hrows Hij Hi Hj Hfirst Hsecond.
  destruct (last_with_date date rows) as [final|] eqn:Hlast; last first.
  { apply last_with_date_None in Hlast.
    rewrite Forall_lookup in Hlast. by destruct (Hlast j second Hj). }
  destruct (last_with_date_Some _ _ _ Hlast) as (before & after & Hsplit & Hd & Hafter).
  exists (fill rows Dict.empty), before, final, after. split_and!; [|done..| | |].
  - by apply convert_loop_fill.
  - rewrite fill_get by done. by rewrite Hlast.
  - apply fill_keys_NoDup. constructor.
  - rewrite <-dict_length_keys, <-(length_fmap Some (Dict.keys _)).
    rewrite <-(length_fmap record_date rows).
    apply (NoDup_length_lt_duplicate _ _ i j (Some date)); [| |done| |].
    + apply (NoDup_fmap_2 _). apply fill_keys_NoDup. constructor.
    + intros y (k & -> & Hk)%list_elem_of_fmap_1.
      apply fill_keys_elem_of in Hk as [Hk|Hk]; [|done..].
      by apply elem_of_nil in Hk.
    + by rewrite list_lookup_fmap, Hi, <-Hfirst.
    + by rewrite list_lookup_fmap, Hj, <-Hsecond.
Qed.

(** The first and the third record fall on the same day. *)
Lemma convert_duplicate_dates_keep_last_witness :
  ∃ output,
    convert (PyRecords [Demo.record 738886 1; Demo.record 738887 5; Demo.record 738886 2])
    = Ok output
    ∧ Dict.get "01/01/2024" output = Some (Float 2)
    ∧ (length output < 3)%nat.
Proof.
  destruct (convert_duplicate_dates_keep_last
              [Demo.record 738886 1; Demo.record 738887 5; Demo.record 738886 2]
              0 2 (Demo.record 738886 1) (Demo.record 738886 2) "01/01/2024")
    as (output & before & final & after & Hconv & _ & _ & _ & _ & _ & Hlen);
    [repeat constructor; by eexists | lia | reflexivity..|].
  exists output. split; [done|]. split; [|done].
  vm_compute in Hconv. injection Hconv as <-. reflexivity.
Defined.

(** ** Dates, the grid and the tail of a frame *)

(** Decide the comparisons of the goal that [lia] proves. *)
Ltac leb_true :=
  repeat match goal with
         | |- context [?a <=? ?b] => rewrite (proj2 (Z.leb_le a b)) by lia
         end.

Section GridFacts.

Lemma date_add_inv d n r : Calendar.date_add d n = Ok r → r = d + n.
Proof. unfold Calendar.date_add. case_match; [by intros [= <-]|done]. Qed.

Lemma date_add_in_range today days :
  START ≤ today → 0 ≤ days → today + days ≤ Pandas.TIMESTAMP_MAX →
  Calendar.date_add today days = Ok (today + days).
Proof.
  intros Hstart Hdays Hmax. unfold Calendar.date_add.
  assert (START = 737425) as Hs by reflexivity.
  assert (Pandas.TIMESTAMP_MAX = 825914) as Hm by reflexivity.
  unfold Calendar.TIMEDELTA_MAX_DAYS, Calendar.MINORDINAL, Calendar.MAXORDINAL.
  by leb_true.
Qed.

Lemma date_range_inv s e dates :
  Pandas.date_range s e = Ok dates → dates = seqZ s (e - s + 1).
Proof.
  unfold Pandas.date_range, Pandas.to_timestamp, mbind, result_bind.
  destruct (_ && _); [|done]. cbv beta iota delta [Ok].
  destruct (_ && _); [|done]. by intros [= <-].
Qed.

Lemma date_range_in_range e :
  START ≤ e → e ≤ Pandas.TIMESTAMP_MAX →
  Pandas.date_range START e = Ok (seqZ START (e - START + 1)).
Proof.
  intros Hstart Hmax.
  assert (START = 737425) as Hs by reflexivity.
  assert (Pandas.TIMESTAMP_MAX = 825914) as Hm by reflexivity.
  assert (Pandas.TIMESTAMP_MIN = 612412) as Hn by reflexivity.
  unfold Pandas.date_range, Pandas.to_timestamp, mbind, result_bind.
  by leb_true.
Qed.

Lemma tail_nonneg {A} (n : Z) (rows : list A) :
  0 ≤ n → Pandas.tail n rows = drop (length rows - Z.to_nat n) rows.
Proof.
  intros Hn. unfold Pandas.tail.
  destruct (Z.eqb_spec n 0) as [->|Hne].
  - simpl. rewrite Nat.sub_0_r. by rewrite drop_all.
  - by rewrite (proj2 (Z.ltb_lt 0 n)) by lia.
Qed.

Lemma tail_length {A} (n : Z) (rows : list A) :
  0 ≤ n → (Z.to_nat n ≤ length rows)%nat →
  length (Pandas.tail n rows) = Z.to_nat n.
Proof. intros Hn Hlen. rewrite tail_nonneg, length_drop by done. lia. Qed.

Lemma drop_seqZ (m n : Z) (k : nat) :
  drop k (seqZ m n) = seqZ (m + Z.of_nat k) (n - Z.of_nat k).
Proof.
  revert m n. induction k as [|k IH]; intros m n.
  - rewrite drop_0. f_equal; lia.
  - destruct (decide (0 < n)) as [Hpos|Hneg].
    + rewrite (seqZ_cons m n) by done. cbn [skipn]. rewrite IH. f_equal; lia.
    + rewrite !seqZ_nil by lia. done.
Qed.

End GridFacts.

(** ** The calendar round trip *)

(** The 365 days of a common year and the first 365 of a leap year, by
    evaluation; the last day of a leap year is the case [n1 = 4] of
    [ord2ymd]. *)
Lemma month_day_checked :
  forallb (month_day_ok false) (seqZ 0 365) && forallb (month_day_ok true) (seqZ 0 365)
  = true.
Proof. vm_compute. reflexivity. Qed.

Lemma month_day_in_year (leapyear : bool) (n : Z) :
  0 ≤ n < 365 → month_day_ok leapyear n = true.
Proof.
  intros Hn. pose proof month_day_checked as Hall.
  apply andb_prop in Hall as [Hcommon Hleap].
  assert (n ∈ seqZ 0 365) as Hin%list_elem_of_In by (apply elem_of_seqZ; lia).
  destruct leapyear.
  - by apply (proj1 (forallb_forall _ _) Hleap).
  - by apply (proj1 (forallb_forall _ _) Hcommon).
Qed.

Lemma div_mod_facts (a b : Z) :
  0 ≤ a → 0 < b → 0 ≤ a / b ∧ 0 ≤ a mod b < b ∧ a = b * (a / b) + a mod b.
Proof.
  intros Ha Hb. split_and!.
  - by apply Z.div_pos.
  - by apply Z.mod_pos_bound.
  - by apply Z.mod_pos_bound.
  - apply Z.div_mod. lia.
Qed.

Lemma div_small (a b q : Z) : 0 < b → b * q ≤ a < b * (q + 1) → a / b = q.
Proof. intros Hb Ha. symmetry. apply (Z.div_unique a b q (a - b * q)); lia. Qed.

Lemma mod_small (a b q : Z) : 0 < b → b * q ≤ a < b * (q + 1) → a mod b = a - b * q.
Proof. intros Hb Ha. symmetry. apply (Z.mod_unique a b q (a - b * q)); lia. Qed.

(** The year split into its cycles of 400, 100, 4 and 1 years, as
    [ord2ymd] counts them. *)
Lemma days_before_year_cycles (c400 c100 c4 c1 : Z) :
  0 ≤ c400 → 0 ≤ c100 ≤ 3 → 0 ≤ c4 ≤ 24 → 0 ≤ c1 ≤ 3 →
  Calendar.days_before_year (400 * c400 + 100 * c100 + 4 * c4 + c1 + 1)
  = 146097 * c400 + 36524 * c100 + 1461 * c4 + 365 * c1.
Proof.
  intros H400 H100 H4 H1. unfold Calendar.days_before_year. cbv zeta.
  replace (400 * c400 + 100 * c100 + 4 * c4 + c1 + 1 - 1)
    with (400 * c400 + 100 * c100 + 4 * c4 + c1) by lia.
  rewrite (div_small _ 4 (100 * c400 + 25 * c100 + c4)) by lia.
  rewrite (div_small _ 100 (4 * c400 + c100)) by lia.
  rewrite (div_small _ 400 c400) by lia.
  lia.
Qed.

Lemma is_leap_cycles (c400 c100 c4 c1 : Z) :
  0 ≤ c400 → 0 ≤ c100 ≤ 3 → 0 ≤ c4 ≤ 24 → 0 ≤ c1 ≤ 3 →
  Calendar.is_leap (400 * c400 + 100 * c100 + 4 * c4 + c1 + 1)
  = (c1 =? 3) && (negb (c4 =? 24) || (c100 =? 3)).
Proof.
  intros H400 H100 H4 H1. unfold Calendar.is_leap.
  set (y := 400 * c400 + 100 * c100 + 4 * c4 + c1 + 1).
  destruct (Z.eqb_spec c1 3) as [->|Hc1].
  - rewrite (mod_small y 4 (100 * c400 + 25 * c100 + c4 + 1)) by (subst y; lia).
    replace (y - 4 * _) with 0 by (subst y; lia). cbn [Z.eqb andb].
    destruct (Z.eqb_spec c4 24) as [->|Hc4]; cbn [negb orb].
    + rewrite (mod_small y 100 (4 * c400 + c100 + 1)) by (subst y; lia).
      replace (y - 100 * _) with 0 by (subst y; lia). cbn [Z.eqb negb orb].
      destruct (Z.eqb_spec c100 3) as [->|Hc100].
      * rewrite (mod_small y 400 (c400 + 1)) by (subst y; lia).
        by replace (y - 400 * _) with 0 by (subst y; lia).
      * rewrite (mod_small y 400 c400) by (subst y; lia).
        apply Z.eqb_neq. subst y. lia.
    + rewrite (mod_small y 100 (4 * c400 + c100)) by (subst y; lia).
      rewrite (proj2 (Z.eqb_neq _ 0)) by (subst y; lia). done.
  - rewrite (mod_small y 4 (100 * c400 + 25 * c100 + c4)) by (subst y; lia).
    rewrite (proj2 (Z.eqb_neq _ 0)) by (subst y; lia). done.
Qed.

(** [ymd2ord] undoes [ord2ymd], which gives a month, a day and a year of
    the calendar. *)
Lemma ord2ymd_round_trip (d : Z) :
  1 ≤ d →
  let '(y, m, dd) := Calendar.ord2ymd d in
  Calendar.ymd2ord y m dd = d ∧ 1 ≤ m ≤ 12 ∧ 1 ≤ dd ≤ 31
  ∧ 1 ≤ y ∧ (d ≤ Calendar.MAXORDINAL → y ≤ 9999).
Proof.
  intros Hd. unfold Calendar.ord2ymd, Calendar.DI400Y, Calendar.DI100Y, Calendar.DI4Y.
  cbv zeta.
  destruct (div_mod_facts (d - 1) 146097) as (H1 & H2 & H3); [lia..|].
  set (n400 := (d - 1) / 146097) in *. set (r400 := (d - 1) mod 146097) in *.
  destruct (div_mod_facts r400 36524) as (H4 & H5 & H6); [lia..|].
  set (n100 := r400 / 36524) in *. set (r100 := r400 mod 36524) in *.
  destruct (div_mod_facts r100 1461) as (H7 & H8 & H9); [lia..|].
  set (n4 := r100 / 1461) in *. set (r4 := r100 mod 1461) in *.
  destruct (div_mod_facts r4 365) as (H10 & H11 & H12); [lia..|].
  set (n1 := r4 / 365) in *. set (n := r4 mod 365) in *.
  clearbody n400 r400 n100 r100 n4 r4 n1 n.
  unfold Calendar.MAXORDINAL.
  destruct ((n1 =? 4) || (n100 =? 4)) eqn:Hlast.
  - assert (n400 * 400 + 1 + n100 * 100 + n4 * 4 + n1 - 1
            = 400 * n400 + 100 * (n100 - (if n100 =? 4 then 1 else 0))
              + 4 * (if n100 =? 4 then 24 else n4)
              + (if n100 =? 4 then 3 else 3) + 1) as ->.
    { apply orb_prop in Hlast as [Hl%Z.eqb_eq|Hl%Z.eqb_eq].
      - destruct (Z.eqb_spec n100 4); lia.
      - rewrite Hl. cbn. lia. }
    unfold Calendar.ymd2ord, Calendar.days_before_month.
    rewrite days_before_year_cycles, is_leap_cycles
      by (destruct (Z.eqb_spec n100 4); lia).
    cbn [Calendar.DAYS_BEFORE_MONTH].
    apply orb_prop in Hlast as [Hl%Z.eqb_eq|Hl%Z.eqb_eq].
    + destruct (Z.eqb_spec n100 4) as [->|Hn100]; [cbn; lia|].
      cbn [Z.eqb andb]. change (2 <? 12) with true. cbn [andb Z.eqb].
      destruct (Z.eqb_spec n4 24) as [->|?]; destruct (Z.eqb_spec (n100 - 0) 3);
        cbn; lia.
    + subst n100. cbn. change (4 - 1) with 3. cbn. lia.
  - apply orb_false_elim in Hlast as [Hn1%Z.eqb_neq Hn100%Z.eqb_neq].
    replace (n400 * 400 + 1 + n100 * 100 + n4 * 4 + n1)
      with (400 * n400 + 100 * n100 + 4 * n4 + n1 + 1) by lia.
    set (leapyear := (n1 =? 3) && (negb (n4 =? 24) || (n100 =? 3))).
    assert (month_day_ok leapyear n = true) as Hok by (apply month_day_in_year; lia).
    unfold month_day_ok, month_day in Hok. cbv zeta in Hok.
    set (month := Z.shiftr (n + 50) 5) in *.
    set (preceding :=
      Calendar.DAYS_BEFORE_MONTH month + (if (2 <? month) && leapyear then 1 else 0)) in *.
    unfold Calendar.ymd2ord, Calendar.days_before_month.
    destruct (n <? preceding);
      rewrite days_before_year_cycles, is_leap_cycles by lia;
      fold leapyear;
      repeat (apply andb_prop in Hok as [Hok ?]);
      lia.
Qed.

(** Reading the digits of [pad2] and [pad4] back. *)
Lemma digit_value_digit (d : Z) :
  digit_value (Calendar.digit d) = Some (d mod 10).
Proof.
  unfold Calendar.digit.
  pose proof (Z.mod_pos_bound d 10 ltac:(lia)) as Hr.
  assert (d mod 10 = 0 ∨ d mod 10 = 1 ∨ d mod 10 = 2 ∨ d mod 10 = 3
          ∨ d mod 10 = 4 ∨ d mod 10 = 5 ∨ d mod 10 = 6 ∨ d mod 10 = 7
          ∨ d mod 10 = 8 ∨ d mod 10 = 9) as Hcases by lia.
  destruct Hcases as [->|[->|[->|[->|[->|[->|[->|[->|[->| ->]]]]]]]]];
    reflexivity.
Qed.

Lemma read2_pad (a b : Z) :
  read2 (Calendar.digit a) (Calendar.digit b) = Some (10 * (a mod 10) + b mod 10).
Proof. unfold read2. by rewrite !digit_value_digit. Qed.

Lemma parse_strftime_mdY_date (d : Z) :
  Calendar.MINORDINAL ≤ d ≤ Calendar.MAXORDINAL →
  parse_mdY (Calendar.strftime_mdY d) = Some d.
Proof.
  unfold Calendar.MINORDINAL. intros [Hlo Hhi].
  pose proof (ord2ymd_round_trip d Hlo) as Hback.
  unfold Calendar.strftime_mdY.
  destruct (Calendar.ord2ymd d) as [[y m] dd].
  destruct Hback as (Hback & Hm & Hdd & Hy & Hmax). specialize (Hmax Hhi).
  unfold Calendar.pad4, Calendar.pad2. cbv [String.append]. cbn [parse_mdY].
  change (Ascii.eqb "/" PosixPath.slash) with true. cbn [andb].
  rewrite !read2_pad. cbn [mbind option_bind].
  f_equal. rewrite <-Hback. f_equal; Z.div_mod_to_equations; lia.
Qed.

Lemma parse_strftime_mdY (d : Z) :
  timestamp_day d → parse_mdY (Calendar.strftime_mdY d) = Some d.
Proof.
  intros [Hmin Hmax]. apply parse_strftime_mdY_date.
  assert (Pandas.TIMESTAMP_MIN = 612412) as Hlo by reflexivity.
  assert (Pandas.TIMESTAMP_MAX = 825914) as Hhi by reflexivity.
  unfold Calendar.MINORDINAL, Calendar.MAXORDINAL. lia.
Qed.

(** ** Files and the stages of the script *)

Section PipelineFacts.

Context (W : World).
Implicit Types (st : state W) (p : PosixPath.Path) (ticker : string) (days : Z).

(** From the year 1000 on, pandas reads the end of the grid as the day
    that was formatted. *)
Lemma end_of_grid_four_digits future :
  Calendar.ymd2ord 1000 1 1 ≤ future ≤ Calendar.MAXORDINAL →
  end_of_grid W future = Ok future.
Proof.
  intros [Hlo Hhi]. unfold end_of_grid.
  rewrite (proj2 (Z.leb_le _ _) Hlo).
  rewrite parse_strftime_mdY_date; [done|].
  assert (Calendar.ymd2ord 1000 1 1 = 364878) as Hy by reflexivity.
  unfold Calendar.MINORDINAL. lia.
Qed.

Lemma end_of_grid_in_range future :
  START ≤ future ≤ Pandas.TIMESTAMP_MAX → end_of_grid W future = Ok future.
Proof.
  intros [Hlo Hhi]. apply end_of_grid_four_digits.
  assert (START = 737425) as Hs by reflexivity.
  assert (Pandas.TIMESTAMP_MAX = 825914) as Hm by reflexivity.
  assert (Calendar.ymd2ord 1000 1 1 = 364878) as Hy by reflexivity.
  unfold Calendar.MAXORDINAL. lia.
Qed.

(** The two image paths of a ticker differ, whatever the ticker. *)
Lemma image_paths_distinct ticker :
  plot_path W ticker ≠ plot_components_path W ticker.
Proof.
  unfold plot_path, plot_components_path, PosixPath.joinpath.
  assert (PosixPath.root_of (ticker +:+ "_plot_components.png")
          = PosixPath.root_of (ticker +:+ "_plot.png")) as ->.
  { destruct ticker as [|c1 [|c2 [|c3 t]]]; cbn;
      repeat (destruct (Ascii.eqb _ PosixPath.slash)); reflexivity. }
  destruct (components_app ticker) as (dirs & x & Hc).
  rewrite !Hc by (done || simpl; lia).
  assert (x +:+ "_plot.png" ≠ x +:+ "_plot_components.png") as Hne.
  { intros Heq%(inj (String.app x)). discriminate Heq. }
  destruct (PosixPath.root_of _).
  - intros [= Heq%app_inv_head]. congruence.
  - intros Heq%app_inv_head%app_inv_head. congruence.
Qed.

Lemma write_file_Ok p content st :
  writable st p →
  write_file W p content st = (Ok (), set_fs W <[p := content]> st).
Proof.
  intros [Hfile Hdir]. unfold write_file. rewrite Hdir.
  by destruct (fs st !! p) as [[]|].
Qed.

Lemma write_file_inv p content st r st' :
  write_file W p content st = (Ok r, st') →
  writable st p ∧ st' = set_fs W <[p := content]> st.
Proof.
  unfold write_file, writable.
  destruct (fs st !! p) as [[]|] eqn:Hp;
    destruct (fs st !! PosixPath.parent p) as [[]|] eqn:Hdir;
    intros [= <-]; done.
Qed.

Lemma train_inv ticker st r st1 :
  train W ticker st = (Ok r, st1) →
  ∃ data model,
    yf_download W ticker "2020-01-01" (Calendar.strftime_Ymd (TODAY W)) = Ok data
    ∧ prophet_fit W (prepare data) = Ok model
    ∧ writable st (model_path W ticker)
    ∧ st1 = set_fs W <[model_path W ticker := ModelFile model]> st
    ∧ r = PyNone.
Proof.
  unfold train, mbind, M_bind, mret, M_ret, lift, joblib_dump.
  destruct (yf_download W ticker _ _) as [e|data] eqn:Hdata; [done|].
  destruct (prophet_fit W (prepare data)) as [e|model] eqn:Hmodel; [done|].
  destruct (write_file W _ _ st) as [[e|[]] st'] eqn:Hwrite; [done|].
  intros [= <- <-]. apply write_file_inv in Hwrite as [Hw ->].
  by exists data, model.
Qed.

Lemma train_Ok ticker st data model :
  yf_download W ticker "2020-01-01" (Calendar.strftime_Ymd (TODAY W)) = Ok data →
  prophet_fit W (prepare data) = Ok model →
  writable st (model_path W ticker) →
  train W ticker st
  = (Ok PyNone, set_fs W <[model_path W ticker := ModelFile model]> st).
Proof.
  intros Hdata Hmodel Hw.
  unfold train, mbind, M_bind, mret, M_ret, lift, joblib_dump.
  rewrite Hdata. cbv beta iota zeta delta [Ok].
  rewrite Hmodel. cbv beta iota zeta delta [Ok].
  by rewrite write_file_Ok.
Qed.

Lemma predict_absent ticker days st :
  fs st !! model_path W ticker = None →
  predict W ticker days st = (Ok (PyBool false), st).
Proof.
  intros Hnone. unfold predict, mbind, M_bind, mret, M_ret, path_exists.
  rewrite Hnone. rewrite bool_decide_eq_false_2; [done|].
  by intros [? ?].
Qed.

Lemma predict_load ticker days st model :
  fs st !! model_path W ticker = Some (ModelFile model) →
  predict W ticker days st = forecast_and_render W model ticker days st.
Proof.
  intros Hsome. unfold predict, mbind, M_bind, path_exists, joblib_load.
  rewrite Hsome. rewrite bool_decide_eq_true_2 by eauto.
  cbv beta iota delta [Ok negb]. by rewrite Hsome.
Qed.

Lemma predict_records_inv ticker days st rows st' :
  predict W ticker days st = (Ok (PyRecords rows), st') →
  ∃ model,
    fs st !! model_path W ticker = Some (ModelFile model)
    ∧ forecast_and_render W model ticker days st = (Ok (PyRecords rows), st').
Proof.
  destruct (fs st !! model_path W ticker) as [[|model|fig]|] eqn:Hfile.
  - unfold predict, mbind, M_bind, path_exists, joblib_load.
    rewrite Hfile. rewrite bool_decide_eq_true_2 by eauto.
    cbv beta iota delta [Ok negb]. by rewrite Hfile.
  - rewrite (predict_load _ _ _ _ Hfile). eauto.
  - unfold predict, mbind, M_bind, path_exists, joblib_load.
    rewrite Hfile. rewrite bool_decide_eq_true_2 by eauto.
    cbv beta iota delta [Ok negb]. by rewrite Hfile.
  - by rewrite predict_absent.
Qed.

(** Writing a file leaves writable what was writable. *)
Lemma writable_after_write p1 p2 content st :
  content ≠ Directory →
  writable st p1 → writable st p2 →
  writable (set_fs W <[p1 := content]> st) p2.
Proof.
  intros Hcontent [Hfile1 Hdir1] [Hfile2 Hdir2]. unfold writable. simpl. split.
  - destruct (decide (p1 = p2)) as [->|Hne].
    + rewrite lookup_insert_eq. congruence.
    + by rewrite lookup_insert_ne.
  - rewrite lookup_insert_ne; [done|]. intros ->. by rewrite Hdir2 in Hfile1.
Qed.

Lemma forecast_and_render_inv model ticker days st r st' :
  forecast_and_render W model ticker days st = (Ok r, st') →
  ∃ end_ forecast,
    Calendar.date_add (TODAY W) days = Ok (TODAY W + days)
    ∧ end_of_grid W (TODAY W + days) = Ok end_
    ∧ Pandas.date_range START end_ = Ok (seqZ START (end_ - START + 1))
    ∧ prophet_predict W model (seqZ START (end_ - START + 1)) = Ok forecast
    ∧ writable st (plot_path W ticker)
    ∧ st' = set_fs W <[plot_components_path W ticker
                       := ImageFile (plot_components W model forecast)]>
              (set_fs W <[plot_path W ticker := ImageFile (plot W model forecast)]> st)
    ∧ r = PyRecords (Pandas.tail days forecast).
Proof.
  unfold forecast_and_render, mbind, M_bind, mret, M_ret, lift, savefig.
  destruct (Calendar.date_add _ _) as [e|future] eqn:Hfuture; [done|].
  pose proof (date_add_inv _ _ _ Hfuture) as ->.
  destruct (end_of_grid W _) as [e|end_] eqn:Hend; [done|].
  destruct (Pandas.date_range _ _) as [e|dates] eqn:Hdates; [done|].
  pose proof (date_range_inv _ _ _ Hdates) as ->.
  destruct (prophet_predict W model _) as [e|forecast] eqn:Hforecast; [done|].
  destruct (write_file W (plot_path W ticker) _ st) as [[e|[]] st1] eqn:Hw1; [done|].
  apply write_file_inv in Hw1 as [Hw1 ->].
  destruct (write_file W (plot_components_path W ticker) _ _)
    as [[e|[]] st2] eqn:Hw2; [done|].
  apply write_file_inv in Hw2 as [Hw2 ->].
  intros [= <- <-]. by exists end_, forecast.
Qed.

Lemma forecast_and_render_Ok model ticker days st forecast :
  Calendar.date_add (TODAY W) days = Ok (TODAY W + days) →
  end_of_grid W (TODAY W + days) = Ok (TODAY W + days) →
  Pandas.date_range START (TODAY W + days)
  = Ok (seqZ START (TODAY W + days - START + 1)) →
  prophet_predict W model (seqZ START (TODAY W + days - START + 1)) = Ok forecast →
  writable st (plot_path W ticker) →
  writable st (plot_components_path W ticker) →
  forecast_and_render W model ticker days st
  = (Ok (PyRecords (Pandas.tail days forecast)),
     set_fs W <[plot_components_path W ticker
                := ImageFile (plot_components W model forecast)]>
       (set_fs W <[plot_path W ticker := ImageFile (plot W model forecast)]> st)).
Proof.
  intros Hfuture Hend Hdates Hforecast Hw1 Hw2.
  unfold forecast_and_render, mbind, M_bind, mret, M_ret, lift, savefig.
  rewrite Hfuture. cbv beta iota delta [Ok].
  rewrite Hend. cbv beta iota delta [Ok].
  rewrite Hdates. cbv beta iota delta [Ok].
  rewrite Hforecast. cbv beta iota delta [Ok].
  rewrite write_file_Ok by done.
  rewrite write_file_Ok by by apply writable_after_write.
  done.
Qed.

Lemma write_file_stdout p content st r st' :
  write_file W p content st = (r, st') → stdout st' = stdout st.
Proof.
  unfold write_file.
  destruct (fs st !! p) as [[]|];
    destruct (fs st !! PosixPath.parent p) as [[]|]; by intros [= <- <-].
Qed.

Lemma train_stdout ticker st r st1 :
  train W ticker st = (r, st1) → stdout st1 = stdout st.
Proof.
  unfold train, mbind, M_bind, mret, M_ret, lift, joblib_dump.
  destruct (yf_download W ticker _ _) as [e|data]; [by intros [= <- <-]|].
  destruct (prophet_fit W (prepare data)) as [e|model]; [by intros [= <- <-]|].
  destruct (write_file W _ _ st) as [[e|[]] st'] eqn:Hwrite;
    apply write_file_stdout in Hwrite; by intros [= <- <-].
Qed.

Lemma forecast_and_render_stdout model ticker days st r st1 :
  forecast_and_render W model ticker days st = (r, st1) → stdout st1 = stdout st.
Proof.
  unfold forecast_and_render, mbind, M_bind, mret, M_ret, lift, savefig.
  destruct (Calendar.date_add _ _) as [e|future]; [by intros [= <- <-]|].
  destruct (end_of_grid W _) as [e|end_]; [by intros [= <- <-]|].
  destruct (Pandas.date_range _ _) as [e|dates]; [by intros [= <- <-]|].
  destruct (prophet_predict W model _) as [e|forecast]; [by intros [= <- <-]|].
  destruct (write_file W (plot_path W ticker) _ st) as [[e|[]] st2] eqn:Hw1;
    apply write_file_stdout in Hw1; [by intros [= <- <-]|].
  destruct (write_file W (plot_components_path W ticker) _ st2)
    as [[e|[]] st3] eqn:Hw2;
    apply write_file_stdout in Hw2; intros [= <- <-]; congruence.
Qed.

Lemma predict_stdout ticker days st r st1 :
  predict W ticker days st = (r, st1) → stdout st1 = stdout st.
Proof.
  destruct (fs st !! model_path W ticker) as [[|model|fig]|] eqn:Hfile.
  - unfold predict, mbind, M_bind, path_exists, joblib_load.
    rewrite Hfile. rewrite bool_decide_eq_true_2 by eauto.
    cbv beta iota delta [Ok negb]. rewrite Hfile. by intros [= <- <-].
  - rewrite (predict_load _ _ _ _ Hfile). apply forecast_and_render_stdout.
  - unfold predict, mbind, M_bind, path_exists, joblib_load.
    rewrite Hfile. rewrite bool_decide_eq_true_2 by eauto.
    cbv beta iota delta [Ok negb]. rewrite Hfile. by intros [= <- <-].
  - rewrite predict_absent by done. by intros [= <- <-].
Qed.

End PipelineFacts.

(** [main], stage by stage. *)
Lemma main_unfold (W : World) (args : Namespace) (st : state W) :
  main W args st
  = match train W (ticker args) st with
    | (inl e, st1) => (inl e, st1)
    | (inr _, st1) =>
        match predict W (ticker args) (days args) st1 with
        | (inl e, st2) => (inl e, st2)
        | (inr prediction_list, st2) =>
            match convert prediction_list with
            | inl e => (inl e, st2)
            | inr output =>
                (Ok (), {| fs := fs st2; stdout := stdout st2 ++ [output] |})
            end
        end
    end.
Proof.
  unfold main, mbind at 1 2 3, M_bind, lift, print.
  destruct (train W (ticker args) st) as [[e|r] st1]; [done|].
  destruct (predict W (ticker args) (days args) st1) as [[e|r'] st2]; [done|].
  by destruct (convert r').
Qed.

(** ** Runs in the small world *)

(** Close a goal between closed terms by evaluation. *)
Ltac by_evaluation := vm_compute; exact eq_refl.

Lemma demo_prophet_contract (model : Model Demo.world) (dates : list Z) :
  dates ≠ [] → prophet_contract Demo.world model dates.
Proof.
  destruct dates as [|d dates]; intros Hne; [done|].
  eexists. split; [reflexivity|].
  generalize (d :: dates). intros l.
  induction l as [|x l IH]; csimpl; constructor; [reflexivity|exact IH].
Qed.

Lemma writable_absent {W} (st : state W) (p : PosixPath.Path) :
  fs st !! p = None →
  fs st !! PosixPath.parent p = Some Directory →
  writable st p.
Proof. intros Hnone Hdir. split; [by rewrite Hnone|done]. Qed.

Lemma demo_fresh_writable (ticker : string) :
  plain_ticker ticker = true →
  writable Demo.fresh (model_path Demo.world ticker).
Proof.
  intros Hplain. unfold model_path.
  rewrite joinpath_plain by first [done | simpl; lia].
  assert (MODEL_DIR Demo.world = ["/"; "srv"; "app"; "models"]) as -> by reflexivity.
  split.
  - unfold Demo.fresh. simpl.
    rewrite !lookup_insert_ne by (intros [=]).
    by rewrite lookup_singleton_ne by (intros [=]).
  - assert (PosixPath.parent (["/"; "srv"; "app"; "models"] ++ [ticker +:+ ".joblib"])
            = ["/"; "srv"; "app"; "models"]) as -> by reflexivity.
    by_evaluation.
Qed.

Lemma demo_train_msft (st : state Demo.world) :
  writable st (model_path Demo.world "MSFT") →
  train Demo.world "MSFT" st = (Ok PyNone, Demo.with_artifact "MSFT" Demo.msft_model st).
Proof.
  intros Hw. unfold Demo.with_artifact.
  by apply (train_Ok Demo.world "MSFT" st (Demo.rows 370) Demo.msft_model).
Qed.

Lemma demo_with_artifact_writable (ticker : string) model st p :
  writable st (model_path Demo.world ticker) →
  writable st p →
  writable (Demo.with_artifact ticker model st) p.
Proof. intros Hmodel Hp. by apply writable_after_write. Qed.

Lemma demo_with_artifact_lookup (ticker : string) model st :
  fs (Demo.with_artifact ticker model st) !! model_path Demo.world ticker
  = Some (ModelFile (W := Demo.world) model).
Proof. unfold Demo.with_artifact. simpl. apply lookup_insert_eq. Qed.

Lemma demo_image_paths_writable :
  writable Demo.trained_msft (plot_path Demo.world "MSFT")
  ∧ writable Demo.trained_msft (plot_components_path Demo.world "MSFT").
Proof.
  split; (apply demo_with_artifact_writable; [by apply demo_fresh_writable|]);
    apply writable_absent; by_evaluation.
Qed.

(** [predict] of MSFT on the trained checkout, for a horizon of a few days
    either way. *)
Lemma demo_predict_msft (days : Z) :
  -9 ≤ days ≤ 9 →
  predict Demo.world "MSFT" days Demo.trained_msft
  = (Ok (PyRecords (Pandas.tail days (Demo.msft_forecast (days + 10)))),
     set_fs Demo.world
       <[plot_components_path Demo.world "MSFT"
         := ImageFile (W := Demo.world)
              ("components", length (Demo.msft_forecast (days + 10)))]>
       (set_fs Demo.world
          <[plot_path Demo.world "MSFT"
            := ImageFile (W := Demo.world)
                 ("plot", length (Demo.msft_forecast (days + 10)))]>
          Demo.trained_msft)).
Proof.
  intros Hdays.
  rewrite (predict_load Demo.world "MSFT" days Demo.trained_msft Demo.msft_model)
    by apply demo_with_artifact_lookup.
  assert (TODAY Demo.world = START + 9) as Htoday by reflexivity.
  assert (START = 737425) as Hstart by reflexivity.
  assert (Pandas.TIMESTAMP_MAX = 825914) as Hmax by reflexivity.
  rewrite (forecast_and_render_Ok Demo.world Demo.msft_model "MSFT" days
             Demo.trained_msft (Demo.msft_forecast (days + 10))).
  - reflexivity.
  - unfold Calendar.date_add, Calendar.TIMEDELTA_MAX_DAYS, Calendar.MINORDINAL,
      Calendar.MAXORDINAL. by leb_true.
  - apply end_of_grid_in_range. lia.
  - apply date_range_in_range; lia.
  - change (prophet_predict Demo.world) with Demo.forecast.
    unfold Demo.msft_forecast, Demo.forecast.
    replace (TODAY Demo.world + days - START + 1) with (days + 10) by lia.
    rewrite (seqZ_cons START (days + 10)) by lia. reflexivity.
  - apply demo_image_paths_writable.
  - apply demo_image_paths_writable.
Qed.

(** ** predict without an artifact *)

(** C1. For a ticker with no artifact, [predict] does not raise, but what
    it returns is the boolean [False], which is not the [None] that its
    docstring and its declared return type announce. *)
Theorem predict_without_artifact_returns_False
    (W : World) (ticker : string) (days : Z) (st : state W) :
  fs st !! model_path W ticker = None →
  predict W ticker days st = (Ok (PyBool false), st)
  ∧ PyBool false ≠ PyNone.
Proof. intros Hnone. split; [by apply predict_absent|done]. Qed.

(** The fresh checkout has no artifact for MSFT. *)
Lemma predict_without_artifact_returns_False_witness :
  predict Demo.world "MSFT" 7 Demo.fresh = (Ok (PyBool false), Demo.fresh)
  ∧ PyBool false ≠ PyNone.
Proof.
  apply (predict_without_artifact_returns_False Demo.world "MSFT" 7 Demo.fresh).
  by_evaluation.
Defined.

(** ** train, then predict *)

(** C2, as the claim states it, fails for a negative horizon: with
    [days = -1], ten days after the start date, [predict] returns eight
    records, the grid up to yesterday without its first day. *)
Lemma predict_negative_horizon :
  ∃ rows st2,
    train Demo.world "MSFT" Demo.fresh = (Ok PyNone, Demo.trained_msft)
    ∧ predict Demo.world "MSFT" (-1) Demo.trained_msft = (Ok (PyRecords rows), st2)
    ∧ length rows = 8%nat
    ∧ Z.of_nat (length rows) ≠ -1
    ∧ (λ data : ForecastRecord, data !! "ds") <$> rows
      = (λ d, Some (Timestamp d)) <$> seqZ (START + 1) 8.
Proof.
  eexists _, _. split_and!.
  - apply demo_train_msft. by apply demo_fresh_writable.
  - by apply demo_predict_msft.
  - by_evaluation.
  - done.
  - by_evaluation.
Qed.

(** C2, amended. For every ticker and every horizon [days] that is not
    negative and does not lead past the last day a pandas timestamp can
    hold, when today is not before the start date, Prophet returns one
    row per date of the grid for the model that [train] stored, and the
    two image files can be written: after [train] has completed,
    [predict] succeeds and returns exactly [days] records, the last
    [days] records of the forecast over the whole grid, dated
    [today + 1] to [today + days]. *)
Theorem predict_after_train
    (W : World) (ticker : string) (days : Z) (st st1 : state W) :
  START ≤ TODAY W →
  0 ≤ days →
  TODAY W + days ≤ Pandas.TIMESTAMP_MAX →
  train W ticker st = (Ok PyNone, st1) →
  (∀ model,
     fs st1 !! model_path W ticker = Some (ModelFile model) →
     prophet_contract W model (seqZ START (TODAY W + days - START + 1))) →
  writable st1 (plot_path W ticker) →
  writable st1 (plot_components_path W ticker) →
  ∃ model forecast st2,
    fs st1 !! model_path W ticker = Some (ModelFile model)
    ∧ prophet_predict W model (seqZ START (TODAY W + days - START + 1)) = Ok forecast
    ∧ predict W ticker days st1 = (Ok (PyRecords (Pandas.tail days forecast)), st2)
    ∧ length (Pandas.tail days forecast) = Z.to_nat days
    ∧ Pandas.tail days forecast = drop (length forecast - Z.to_nat days) forecast
    ∧ Forall2 (λ d data, data !! "ds" = Some (Timestamp d))
        (seqZ (TODAY W + 1) days) (Pandas.tail days forecast).
Proof.
  intros Hstart Hdays Hmax Htrain Hprophet Hw1 Hw2.
  apply train_inv in Htrain as (data & model & _ & _ & _ & -> & _).
  set (n := TODAY W + days - START + 1).
  destruct (Hprophet model) as (forecast & Hforecast & Hrows);
    [apply lookup_insert_eq|].
  fold n in Hforecast, Hrows.
  pose proof (Forall2_length _ _ _ Hrows) as Hlen. rewrite length_seqZ in Hlen.
  exists model, forecast. eexists. split_and!.
  - simpl. apply lookup_insert_eq.
  - done.
  - rewrite (predict_load W _ _ _ model) by apply lookup_insert_eq.
    apply forecast_and_render_Ok;
      [|by apply end_of_grid_in_range; lia|by apply date_range_in_range; lia|done..].
    by apply date_add_in_range.
  - apply tail_length; lia.
  - by apply tail_nonneg.
  - rewrite tail_nonneg by done.
    replace (seqZ (TODAY W + 1) days)
      with (drop (length forecast - Z.to_nat days) (seqZ START n)).
    + by apply Forall2_drop.
    + rewrite drop_seqZ. f_equal; lia.
Qed.

(** Train MSFT on the fresh checkout, then ask for three days. *)
Lemma predict_after_train_witness :
  ∃ rows st2,
    predict Demo.world "MSFT" 3 Demo.trained_msft = (Ok (PyRecords rows), st2)
    ∧ length rows = 3%nat.
Proof.
  destruct (predict_after_train Demo.world "MSFT" 3 Demo.fresh Demo.trained_msft)
    as (model & forecast & st2 & _ & _ & Hpredict & Hlen & _).
  - apply Z.leb_le. by_evaluation.
  - lia.
  - apply Z.leb_le. by_evaluation.
  - apply demo_train_msft. by apply demo_fresh_writable.
  - intros model _. by apply demo_prophet_contract.
  - apply demo_image_paths_writable.
  - apply demo_image_paths_writable.
  - exists (Pandas.tail 3 forecast), st2. split; [exact Hpredict|exact Hlen].
Defined.

(** ** The artifact of a ticker *)

(** C5, as the claim states it, fails: ["./MSFT"] is another ticker than
    ["MSFT"], [pathlib] drops the ["."] component, so both have the same
    artifact path and training ["MSFT"] replaces the artifact that
    [predict] loads for ["./MSFT"]. *)
Lemma train_replaces_artifact_of_alias_ticker :
  "./MSFT" ≠ "MSFT"
  ∧ model_path Demo.world "./MSFT" = model_path Demo.world "MSFT"
  ∧ train Demo.world "MSFT" Demo.stale
    = (Ok PyNone, Demo.with_artifact "MSFT" Demo.msft_model Demo.stale)
  ∧ fs Demo.stale !! model_path Demo.world "./MSFT"
    = Some (ModelFile (W := Demo.world) [(1, 1%float); (2, 2%float)])
  ∧ fs (Demo.with_artifact "MSFT" Demo.msft_model Demo.stale)
      !! model_path Demo.world "./MSFT"
    = Some (ModelFile (W := Demo.world) Demo.msft_model)
  ∧ length Demo.msft_model ≠ length [(1, 1%float); (2, 2%float)].
Proof.
  assert (model_path Demo.world "./MSFT" = model_path Demo.world "MSFT") as Halias
    by by_evaluation.
  rewrite Halias. split_and!.
  - done.
  - done.
  - apply demo_train_msft.
    apply demo_with_artifact_writable; by apply demo_fresh_writable.
  - apply demo_with_artifact_lookup.
  - apply demo_with_artifact_lookup.
  - by vm_compute.
Qed.

(** C5, amended. [train] writes the fitted model to the one path
    [Path(MODEL_DIR).joinpath(f"{ticker}.joblib")], which depends on the
    ticker alone, and changes no other path.  For a ticker without ["/"]
    that path is [<MODEL_DIR>/<ticker>.joblib], and the artifact of every
    other ticker without ["/"] is left as it was. *)
Theorem train_writes_own_artifact_only
    (W : World) (ticker : string) (st st1 : state W) :
  train W ticker st = (Ok PyNone, st1) →
  ∃ model,
    fs st1 = <[model_path W ticker := ModelFile model]> (fs st)
    ∧ stdout st1 = stdout st
    ∧ (∀ p, p ≠ model_path W ticker → fs st1 !! p = fs st !! p)
    ∧ (plain_ticker ticker = true →
       model_path W ticker = MODEL_DIR W ++ [ticker +:+ ".joblib"])
    ∧ (∀ other,
         plain_ticker ticker = true → plain_ticker other = true →
         other ≠ ticker →
         model_path W other ≠ model_path W ticker
         ∧ fs st1 !! model_path W other = fs st !! model_path W other).
Proof.
  intros (data & model & _ & _ & _ & -> & _)%train_inv.
  exists model. simpl. split_and!; [done..| | |].
  - intros p Hp. by rewrite lookup_insert_ne.
  - intros Hplain. apply joinpath_plain; first [done | simpl; lia].
  - intros other Hplain Hother Hne.
    assert (model_path W other ≠ model_path W ticker) as Hpath.
    { intros Heq. apply Hne.
      apply (joinpath_plain_inj (MODEL_DIR W) _ _ ".joblib");
        first [done | simpl; lia]. }
    split; [done|]. by rewrite lookup_insert_ne.
Qed.

(** Training MSFT where AAPL is trained leaves the artifact of AAPL. *)
Lemma train_writes_own_artifact_only_witness :
  fs (Demo.with_artifact "MSFT" Demo.msft_model Demo.trained_aapl)
    !! model_path Demo.world "AAPL"
  = fs Demo.trained_aapl !! model_path Demo.world "AAPL".
Proof.
  destruct (train_writes_own_artifact_only Demo.world "MSFT" Demo.trained_aapl
              (Demo.with_artifact "MSFT" Demo.msft_model Demo.trained_aapl))
    as (model & _ & _ & _ & _ & Hother).
  - apply demo_train_msft.
    apply demo_with_artifact_writable; by apply demo_fresh_writable.
  - by apply Hother.
Defined.

(** C6. When a ticker already has an artifact, [train] replaces it with
    the model fitted on the data it has just downloaded, and a following
    [predict] forecasts with that model. *)
Theorem retrain_replaces_artifact
    (W : World) (ticker : string) (days : Z) (st st1 : state W) (old : Model W) :
  fs st !! model_path W ticker = Some (ModelFile old) →
  train W ticker st = (Ok PyNone, st1) →
  ∃ data model,
    yf_download W ticker "2020-01-01" (Calendar.strftime_Ymd (TODAY W)) = Ok data
    ∧ prophet_fit W (prepare data) = Ok model
    ∧ fs st1 !! model_path W ticker = Some (ModelFile model)
    ∧ predict W ticker days st1 = forecast_and_render W model ticker days st1.
Proof.
  intros _ (data & model & Hdata & Hmodel & _ & -> & _)%train_inv.
  exists data, model.
  assert (fs (set_fs W <[model_path W ticker := ModelFile model]> st)
            !! model_path W ticker = Some (ModelFile model)) as Hfile
    by apply lookup_insert_eq.
  split_and!; [done..|]. by apply predict_load.
Qed.

(** Training MSFT over the stale artifact stores the three-row model. *)
Lemma retrain_replaces_artifact_witness :
  ∃ model,
    fs (Demo.with_artifact "MSFT" Demo.msft_model Demo.stale)
      !! model_path Demo.world "MSFT"
    = Some (ModelFile model)
    ∧ length model = 3%nat.
Proof.
  destruct (retrain_replaces_artifact Demo.world "MSFT" 7 Demo.stale
              (Demo.with_artifact "MSFT" Demo.msft_model Demo.stale)
              [(1, 1%float); (2, 2%float)])
    as (data & model & Hdata & Hmodel & Hfile & _).
  - apply demo_with_artifact_lookup.
  - apply demo_train_msft.
    apply demo_with_artifact_writable; by apply demo_fresh_writable.
  - pose proof (demo_with_artifact_lookup "MSFT" Demo.msft_model Demo.stale) as Hlookup.
    rewrite Hfile in Hlookup. injection Hlookup as ->.
    exists Demo.msft_model. split; [exact Hfile|reflexivity].
Defined.

(** ** The success path of predict *)

(** The figures directory, and a path in a directory. *)
Lemma FIG_DIR_unfold (W : World) : FIG_DIR W = BASE_DIR W ++ ["figures"].
Proof. reflexivity. Qed.

Lemma image_paths_plain (W : World) (ticker : string) :
  plain_ticker ticker = true →
  plot_path W ticker = BASE_DIR W ++ ["figures"; ticker +:+ "_plot.png"]
  ∧ plot_components_path W ticker
    = BASE_DIR W ++ ["figures"; ticker +:+ "_plot_components.png"].
Proof.
  intros Hplain. unfold plot_path, plot_components_path.
  rewrite !joinpath_plain by first [done | simpl; lia].
  rewrite FIG_DIR_unfold, <-!app_assoc. done.
Qed.

(** C8, as the claim states it, fails for a ticker that begins with
    ["/"]: with the artifact of ["/srv/x"] in place, [predict] succeeds
    and writes its two images next to the artifact, in [/srv], and
    nothing in the figures directory. *)
Lemma predict_absolute_ticker_leaves_figures :
  ∃ rows st',
    fs Scenario.escaped !! model_path Demo.world "/srv/x"
    = Some (ModelFile (W := Demo.world) Demo.msft_model)
    ∧ predict Demo.world "/srv/x" 2 Scenario.escaped = (Ok (PyRecords rows), st')
    ∧ length rows = 2%nat
    ∧ FIG_DIR Demo.world = ["/"; "srv"; "app"; "figures"]
    ∧ plot_path Demo.world "/srv/x" = ["/"; "srv"; "x_plot.png"]
    ∧ plot_components_path Demo.world "/srv/x" = ["/"; "srv"; "x_plot_components.png"]
    ∧ fs Scenario.escaped !! ["/"; "srv"; "x_plot.png"] = None
    ∧ fs Scenario.escaped !! ["/"; "srv"; "x_plot_components.png"] = None
    ∧ is_Some (fs st' !! ["/"; "srv"; "x_plot.png"])
    ∧ is_Some (fs st' !! ["/"; "srv"; "x_plot_components.png"])
    ∧ (∀ p, PosixPath.parent p = FIG_DIR Demo.world →
         fs st' !! p = fs Scenario.escaped !! p).
Proof.
  assert (plot_path Demo.world "/srv/x" = ["/"; "srv"; "x_plot.png"]) as Hp1
    by by_evaluation.
  assert (plot_components_path Demo.world "/srv/x"
          = ["/"; "srv"; "x_plot_components.png"]) as Hp2 by by_evaluation.
  assert (writable Demo.fresh (model_path Demo.world "/srv/x")) as Hw
    by (apply writable_absent; by_evaluation).
  assert (writable Scenario.escaped (plot_path Demo.world "/srv/x")) as Hw1.
  { apply demo_with_artifact_writable; [done|]. apply writable_absent; by_evaluation. }
  assert (writable Scenario.escaped (plot_components_path Demo.world "/srv/x")) as Hw2.
  { apply demo_with_artifact_writable; [done|]. apply writable_absent; by_evaluation. }
  assert (model_path Demo.world "/srv/x" = ["/"; "srv"; "x.joblib"]) as Hm
    by by_evaluation.
  assert (∀ p, p ≠ ["/"; "srv"; "x.joblib"] →
            fs Scenario.escaped !! p = fs Demo.fresh !! p) as Hold.
  { intros p Hp. unfold Scenario.escaped, Demo.with_artifact. cbn [fs set_fs].
    rewrite Hm. by rewrite lookup_insert_ne. }
  eexists _, _. split_and!.
  - apply demo_with_artifact_lookup.
  - rewrite (predict_load Demo.world "/srv/x" 2 Scenario.escaped Demo.msft_model)
      by apply demo_with_artifact_lookup.
    apply (forecast_and_render_Ok Demo.world Demo.msft_model "/srv/x" 2
             Scenario.escaped (Demo.msft_forecast 12)); [by_evaluation..|done|done].
  - by_evaluation.
  - reflexivity.
  - done.
  - done.
  - rewrite Hold by discriminate. by_evaluation.
  - rewrite Hold by discriminate. by_evaluation.
  - cbn [fs set_fs]. rewrite <-Hp1.
    rewrite lookup_insert_ne by (apply not_eq_sym, image_paths_distinct).
    rewrite lookup_insert_eq. by eexists.
  - cbn [fs set_fs]. rewrite <-Hp2. rewrite lookup_insert_eq. by eexists.
  - intros p Hparent. cbn [fs set_fs].
    rewrite !lookup_insert_ne; [done| |].
    + intros <-. rewrite Hp1 in Hparent. discriminate Hparent.
    + intros <-. rewrite Hp2 in Hparent. discriminate Hparent.
Qed.

(** C8, amended. When [predict] returns records for a ticker whose
    artifact exists, and the year of today plus [days] has four digits:
    the grid has every day from 2020-01-01 to today plus [days], the
    loaded model's [predict] was run on that whole grid, the records
    returned are the tail of its forecast, and the file system changed at
    exactly two paths, the two distinct image paths of the ticker;
    nothing was printed.  For a ticker without ["/"] these two paths are
    [<ticker>_plot.png] and [<ticker>_plot_components.png] in the
    directory [figures] next to the script. *)
Theorem predict_success_path
    (W : World) (ticker : string) (days : Z) (st st' : state W)
    (rows : list ForecastRecord) :
  Calendar.ymd2ord 1000 1 1 ≤ TODAY W + days →
  is_Some (fs st !! model_path W ticker) →
  predict W ticker days st = (Ok (PyRecords rows), st') →
  ∃ model dates forecast,
    fs st !! model_path W ticker = Some (ModelFile model)
    ∧ Pandas.date_range START (TODAY W + days) = Ok dates
    ∧ (∀ d, d ∈ dates ↔ START ≤ d ≤ TODAY W + days)
    ∧ dates = seqZ START (TODAY W + days - START + 1)
    ∧ prophet_predict W model dates = Ok forecast
    ∧ rows = Pandas.tail days forecast
    ∧ fs st' = <[plot_components_path W ticker
                 := ImageFile (plot_components W model forecast)]>
                 (<[plot_path W ticker := ImageFile (plot W model forecast)]> (fs st))
    ∧ plot_path W ticker ≠ plot_components_path W ticker
    ∧ (∀ p, p ≠ plot_path W ticker → p ≠ plot_components_path W ticker →
         fs st' !! p = fs st !! p)
    ∧ FIG_DIR W = BASE_DIR W ++ ["figures"]
    ∧ (plain_ticker ticker = true →
       plot_path W ticker = BASE_DIR W ++ ["figures"; ticker +:+ "_plot.png"]
       ∧ plot_components_path W ticker
         = BASE_DIR W ++ ["figures"; ticker +:+ "_plot_components.png"])
    ∧ stdout st' = stdout st.
Proof.
  intros Hyear _ (model & Hfile & Hrender)%predict_records_inv.
  apply forecast_and_render_inv
    in Hrender as (end_ & forecast & Hfuture & Hend & Hdates & Hforecast & _ & -> & [= ->]).
  assert (end_ = TODAY W + days) as ->.
  { unfold Calendar.date_add in Hfuture.
    destruct (_ && _) eqn:Hin in Hfuture; [|done].
    apply andb_prop in Hin as [_ Hhi%Z.leb_le].
    rewrite end_of_grid_four_digits in Hend by done. by injection Hend. }
  exists model, (seqZ START (TODAY W + days - START + 1)), forecast.
  simpl. split_and!; try done.
  - intros d. rewrite elem_of_seqZ. lia.
  - apply image_paths_distinct.
  - intros p Hp1 Hp2. by rewrite !lookup_insert_ne.
  - apply image_paths_plain.
Qed.

(** Two days ahead: the grid has twelve days, two records come back, and
    the two images are in [/srv/app/figures]. *)
Lemma predict_success_path_witness :
  ∃ forecast,
    prophet_predict Demo.world Demo.msft_model (seqZ START 12) = Ok forecast
    ∧ (predict Demo.world "MSFT" 2 Demo.trained_msft).1
      = Ok (PyRecords (Pandas.tail 2 forecast))
    ∧ plot_path Demo.world "MSFT" = ["/"; "srv"; "app"; "figures"; "MSFT_plot.png"]
    ∧ plot_components_path Demo.world "MSFT"
      = ["/"; "srv"; "app"; "figures"; "MSFT_plot_components.png"].
Proof.
  pose proof (demo_predict_msft 2 ltac:(lia)) as Hrun.
  pose proof (demo_with_artifact_lookup "MSFT" Demo.msft_model Demo.fresh) as Hstored.
  assert (Calendar.ymd2ord 1000 1 1 ≤ TODAY Demo.world + 2) as Hyear
    by (apply Z.leb_le; by_evaluation).
  destruct (predict_success_path Demo.world "MSFT" 2 Demo.trained_msft _ _
              Hyear (mk_is_Some _ _ Hstored) Hrun)
    as (model & dates & forecast & Hfile & _ & _ & -> & Hforecast & Hrows
        & _ & _ & _ & _ & Hpaths & _).
  unfold Demo.trained_msft in Hfile.
  rewrite demo_with_artifact_lookup in Hfile. injection Hfile as <-.
  destruct (Hpaths eq_refl) as [Hplot Hcomponents].
  exists forecast. split_and!; [exact Hforecast| |exact Hplot|exact Hcomponents].
  rewrite Hrun. simpl. by rewrite Hrows.
Defined.

(** ** The entry point *)



(** * Further properties *)

(** ** convert: when it succeeds and what it raises *)

Section ConvertMore.

Implicit Types (data : ForecastRecord) (rows : list ForecastRecord).
Implicit Types (output : PredictionMap) (date : string).

Lemma result_bind_Ok {A B} (a : A) (k : A → result B) : Ok a ≫= k = k a.
Proof. reflexivity. Qed.

Lemma convert_loop_app rows1 rows2 output :
  convert_loop (rows1 ++ rows2) output
  = convert_loop rows1 output ≫= convert_loop rows2.
Proof.
  revert output. induction rows1 as [|data rows1 IH]; intros output; [done|].
  cbn [app convert_loop]. unfold getitem, strftime_mdY.
  destruct (data !! "ds") as [[d|x]|]; [|done..].
  destruct (data !! "trend") as [trend|]; [|done].
  apply IH.
Qed.

Lemma convert_loop_bad data rest output :
  ¬ forecast_record data →
  convert_loop (data :: rest) output = Raise (record_error data).
Proof.
  unfold forecast_record, record_date, record_trend, record_error.
  intros Hbad. cbn [convert_loop]. unfold getitem, strftime_mdY.
  destruct (data !! "ds") as [[d|x]|]; [|done..].
  destruct (data !! "trend") as [trend|]; [|done].
  destruct Hbad. split; by eexists.
Qed.

Lemma convert_loop_Ok_inv rows output out :
  convert_loop rows output = Ok out → Forall forecast_record rows.
Proof.
  revert output. induction rows as [|data rest IH]; intros output Hrun; [constructor|].
  destruct (decide (forecast_record data)) as [Hgood|Hbad].
  - constructor; [done|].
    destruct (forecast_record_entry data Hgood) as (date & trend & Hd & Ht & _).
    rewrite (convert_loop_step _ _ _ _ _ Hd Ht) in Hrun. by eapply IH.
  - by rewrite convert_loop_bad in Hrun.
Qed.

Lemma dict_get_elem_of {V} (d : Dict.t V) (k : string) (v : V) :
  NoDup (Dict.keys d) → (k, v) ∈ d → Dict.get k d = Some v.
Proof.
  unfold Dict.keys. induction d as [|[k' v'] d IH]; intros Hnd Hin.
  - by apply elem_of_nil in Hin.
  - rewrite fmap_cons in Hnd. apply NoDup_cons in Hnd as [Hk' Hnd].
    apply elem_of_cons in Hin as [[= -> ->]|Hin]; simpl.
    + by rewrite String.eqb_refl.
    + destruct (String.eqb_spec k' k) as [->|_]; [|by apply IH].
      destruct Hk'. by apply (list_elem_of_fmap_2 fst _ (k, v)).
Qed.

End ConvertMore.

(** X1. [convert] returns a mapping exactly when every record of its
    input has a timestamp under ["ds"] and some value under ["trend"]. *)
Theorem convert_succeeds_iff (rows : list ForecastRecord) :
  (∃ output, convert (PyRecords rows) = Ok output) ↔ Forall forecast_record rows.
Proof.
  split.
  - intros [output Hrun]. by eapply convert_loop_Ok_inv.
  - intros Hrows. eexists. by apply convert_loop_fill.
Qed.

(** X2. The exception of [convert] is that of the first record that is
    not a forecast record, whatever comes after it: [KeyError] for a
    missing ["ds"], [AttributeError] for a ["ds"] that is a float,
    [KeyError] for a missing ["trend"]. *)
Theorem convert_raises_at_first_bad_record
    (good : list ForecastRecord) (bad : ForecastRecord) (rest : list ForecastRecord) :
  Forall forecast_record good →
  ¬ forecast_record bad →
  convert (PyRecords (good ++ bad :: rest))
  = Raise (match bad !! "ds" with
           | None => KeyError "ds"
           | Some (Float _) => AttributeError
           | Some (Timestamp _) => KeyError "trend"
           end).
Proof.
  intros Hgood Hbad. unfold convert.
  rewrite convert_loop_app, (convert_loop_fill good) by done.
  by rewrite result_bind_Ok, convert_loop_bad.
Qed.

(** A good record, then one whose date is a number, then one without
    any field. *)
Lemma convert_raises_at_first_bad_record_witness :
  convert (PyRecords ([Demo.record 738886 1] ++ {[ "ds" := Float 3 ]} :: [∅]))
  = Raise AttributeError.
Proof.
  rewrite (convert_raises_at_first_bad_record
             [Demo.record 738886 1] {[ "ds" := Float 3 ]} [∅]).
  - by_evaluation.
  - repeat constructor; by eexists.
  - intros [[date Hdate] _]. vm_compute in Hdate. discriminate Hdate.
Defined.

(** X3. Without an artifact the two stages do not compose: [predict]
    returns [False] and leaves the state as it was, [convert] of [False]
    raises [TypeError], and so does [predict] followed by [convert]. *)
Theorem convert_of_predict_without_artifact
    (W : World) (ticker : string) (days : Z) (st : state W) :
  fs st !! model_path W ticker = None →
  predict W ticker days st = (Ok (PyBool false), st)
  ∧ convert (PyBool false) = Raise TypeError
  ∧ (prediction_list ← predict W ticker days; lift (convert prediction_list)) st
    = (Raise TypeError, st).
Proof.
  intros Hnone. pose proof (predict_absent W ticker days st Hnone) as Hrun.
  split_and!; [done..|].
  unfold mbind, M_bind. by rewrite Hrun.
Qed.

(** Nothing was trained on the fresh checkout. *)
Lemma convert_of_predict_without_artifact_witness :
  predict Demo.world "AAPL" 7 Demo.fresh = (Ok (PyBool false), Demo.fresh)
  ∧ convert (PyBool false) = Raise TypeError
  ∧ (prediction_list ← predict Demo.world "AAPL" 7; lift (convert prediction_list))
      Demo.fresh
    = (Raise TypeError, Demo.fresh).
Proof.
  apply (convert_of_predict_without_artifact Demo.world "AAPL" 7 Demo.fresh).
  by_evaluation.
Defined.

(** X4. [convert] reads the columns ["ds"] and ["trend"] only: two inputs
    whose records agree on these two columns give the same result, be it
    a mapping or an exception. *)
Theorem convert_reads_ds_and_trend_only (rows rows' : list ForecastRecord) :
  Forall2 (λ data data' : ForecastRecord,
             data !! "ds" = data' !! "ds" ∧ data !! "trend" = data' !! "trend")
    rows rows' →
  convert (PyRecords rows) = convert (PyRecords rows').
Proof.
  intros Hagree. unfold convert. generalize (@Dict.empty cell).
  induction Hagree as [|data data' rows rows' [Hds Htrend] _ IH]; intros output;
    [done|].
  cbn [convert_loop]. unfold getitem. rewrite Hds, Htrend.
  destruct (data' !! "ds") as [ds|]; [|done]. cbn.
  destruct (strftime_mdY ds) as [e|date]; [done|]. cbn.
  destruct (data' !! "trend") as [trend|]; [|done]. cbn. apply IH.
Qed.

(** The second input has a forecast column more. *)
Lemma convert_reads_ds_and_trend_only_witness :
  convert (PyRecords [Demo.record 738886 1])
  = convert (PyRecords [<["yhat" := Float 9]> (Demo.record 738886 1)]).
Proof.
  apply convert_reads_ds_and_trend_only.
  repeat constructor; by_evaluation.
Defined.

(** X5. The mapping of a concatenation is the mapping of the first part
    overridden by the mapping of the second part. *)
Theorem convert_of_concatenation (rows1 rows2 : list ForecastRecord) :
  Forall forecast_record rows1 →
  Forall forecast_record rows2 →
  ∃ output1 output2 output,
    convert (PyRecords rows1) = Ok output1
    ∧ convert (PyRecords rows2) = Ok output2
    ∧ convert (PyRecords (rows1 ++ rows2)) = Ok output
    ∧ ∀ date,
        Dict.get date output
        = match Dict.get date output2 with
          | Some trend => Some trend
          | None => Dict.get date output1
          end.
Proof.
  intros Hrows1 Hrows2.
  exists (fill rows1 Dict.empty), (fill rows2 Dict.empty),
    (fill rows2 (fill rows1 Dict.empty)).
  split_and!.
  - by apply convert_loop_fill.
  - by apply convert_loop_fill.
  - unfold convert. rewrite convert_loop_app, (convert_loop_fill rows1) by done.
    rewrite result_bind_Ok. by apply convert_loop_fill.
  - intros date. rewrite !(fill_get rows2) by done.
    destruct (last_with_date date rows2) as [data|] eqn:Hlast; [|done].
    apply last_with_date_Some in Hlast as (before & after & -> & _ & _).
    apply Forall_app in Hrows2 as [_ Hdata].
    apply Forall_cons in Hdata as [[_ [trend Htrend]] _].
    by rewrite Htrend.
Qed.

(** The second part gives another trend for the day of the first. *)
Lemma convert_of_concatenation_witness :
  convert (PyRecords ([Demo.record 738886 1; Demo.record 738887 2]
                      ++ [Demo.record 738886 5]))
  = Ok [("01/01/2024", Float 5); ("01/02/2024", Float 2)].
Proof.
  destruct (convert_of_concatenation
              [Demo.record 738886 1; Demo.record 738887 2] [Demo.record 738886 5])
    as (output1 & output2 & output & _ & _ & Hrun & _);
    [repeat constructor; by eexists..|].
  rewrite Hrun. vm_compute in Hrun. by injection Hrun as <-.
Defined.

(** X6. Whatever the input, a mapping returned by [convert] has pairwise
    distinct keys, no more entries than the input has records, and every
    entry is the formatted date and the trend of one of the records. *)
Theorem convert_output_invariant (rows : list ForecastRecord) (output : PredictionMap) :
  convert (PyRecords rows) = Ok output →
  NoDup (Dict.keys output)
  ∧ (length output ≤ length rows)%nat
  ∧ ∀ date trend,
      (date, trend) ∈ output →
      ∃ data, data ∈ rows ∧ record_date data = Some date
              ∧ record_trend data = Some trend.
Proof.
  intros Hrun.
  assert (Forall forecast_record rows) as Hrows by by eapply convert_loop_Ok_inv.
  unfold convert in Hrun. rewrite convert_loop_fill in Hrun by done.
  injection Hrun as <-.
  assert (NoDup (Dict.keys (fill rows Dict.empty))) as Hnd
    by (apply fill_keys_NoDup; constructor).
  split_and!; [done| |].
  - rewrite <-dict_length_keys, <-(length_fmap Some (Dict.keys _)).
    rewrite <-(length_fmap record_date rows).
    apply submseteq_length, NoDup_submseteq; [by apply (NoDup_fmap_2 _)|].
    intros y (k & -> & Hk)%list_elem_of_fmap_1.
    apply fill_keys_elem_of in Hk as [Hk|Hk]; [|done..].
    by apply elem_of_nil in Hk.
  - intros date trend Hin.
    pose proof (dict_get_elem_of _ _ _ Hnd Hin) as Hget.
    rewrite fill_get in Hget by done.
    destruct (last_with_date date rows) as [data|] eqn:Hlast; [|done].
    apply last_with_date_Some in Hlast as (before & after & -> & Hdate & _).
    exists data. split_and!; [|done..].
    apply elem_of_app. right. apply list_elem_of_here.
Qed.

(** Three records on two days give two entries. *)
Lemma convert_output_invariant_witness :
  (length [("01/01/2024", Float 2); ("01/02/2024", Float 5)] ≤ 3)%nat.
Proof.
  apply (convert_output_invariant
           [Demo.record 738886 1; Demo.record 738887 5; Demo.record 738886 2]
           [("01/01/2024", Float 2); ("01/02/2024", Float 5)]).
  by_evaluation.
Defined.

(** ** Dates as keys *)

(** X7. Formatting a day as MM/DD/YYYY and reading the text back, month
    first, gives the day again, for every day a pandas timestamp can
    hold: the text [predict] hands to [date_range] as the end of the grid
    names the day [today + days], and the text [convert] uses as a key
    names the day of the record. *)
Theorem strftime_mdY_round_trip (d : Z) :
  timestamp_day d → parse_mdY (Calendar.strftime_mdY d) = Some d.
Proof. apply parse_strftime_mdY. Qed.

(** The first of January 2024. *)
Lemma strftime_mdY_round_trip_witness :
  parse_mdY (Calendar.strftime_mdY 738886) = Some 738886.
Proof.
  apply (strftime_mdY_round_trip 738886). split; apply Z.leb_le; by_evaluation.
Defined.

Lemma convert_distinct_days_keys (days : list Z) (rows : list ForecastRecord) :
  Forall timestamp_day days →
  NoDup days →
  Forall2 (λ d data, data !! "ds" = Some (Timestamp d) ∧ is_Some (data !! "trend"))
    days rows →
  ∃ output,
    convert (PyRecords rows) = Ok output
    ∧ Dict.keys output = Calendar.strftime_mdY <$> days
    ∧ NoDup (Dict.keys output)
    ∧ length output = length rows.
Proof.
  intros Hdays Hnd Hrows.
  assert (Forall forecast_record rows) as Hgood.
  { clear Hdays Hnd. induction Hrows as [|d data days rows [Hds Htrend] _ IH];
      constructor; [|done].
    split; [|done]. unfold record_date. rewrite Hds. by eexists. }
  assert (record_date <$> rows = Some <$> (Calendar.strftime_mdY <$> days)) as Hdates.
  { clear Hdays Hnd Hgood.
    induction Hrows as [|d data days rows [Hds _] _ IH]; [done|].
    rewrite !fmap_cons, IH. unfold record_date. by rewrite Hds. }
  assert (NoDup (Calendar.strftime_mdY <$> days)) as Hkeys.
  { apply NoDup_fmap_2_strong; [|done].
    intros d d' Hd Hd' Heq.
    rewrite Forall_forall in Hdays.
    pose proof (parse_strftime_mdY d (Hdays d Hd)) as Hback.
    rewrite Heq, (parse_strftime_mdY d' (Hdays d' Hd')) in Hback.
    by injection Hback. }
  exists (fill rows Dict.empty).
  assert (Dict.keys (fill rows Dict.empty) = Calendar.strftime_mdY <$> days) as Hout
    by by apply (fill_keys_fresh rows Dict.empty).
  split_and!.
  - by apply convert_loop_fill.
  - done.
  - by rewrite Hout.
  - rewrite <-dict_length_keys, Hout, length_fmap.
    by apply Forall2_length in Hrows.
Qed.

(** X8. Records of pairwise distinct days get pairwise distinct keys:
    [convert] of such records, each with a trend, has one entry per
    record, keyed by the formatted days in the order of the input. *)
Theorem convert_of_distinct_days (days : list Z) (rows : list ForecastRecord) :
  Forall timestamp_day days →
  NoDup days →
  Forall2 (λ d data, data !! "ds" = Some (Timestamp d) ∧ is_Some (data !! "trend"))
    days rows →
  ∃ output,
    convert (PyRecords rows) = Ok output
    ∧ Dict.keys output = Calendar.strftime_mdY <$> days
    ∧ NoDup (Dict.keys output)
    ∧ length output = length rows.
Proof. apply convert_distinct_days_keys. Qed.

(** The last day of one month and the first of the next. *)
Lemma convert_of_distinct_days_witness :
  ∃ output,
    convert (PyRecords [Demo.record 738916 1; Demo.record 738917 2]) = Ok output
    ∧ Dict.keys output = ["01/31/2024"; "02/01/2024"].
Proof.
  destruct (convert_of_distinct_days [738916; 738917]
              [Demo.record 738916 1; Demo.record 738917 2])
    as (output & Hrun & Hkeys & _).
  - repeat constructor; apply Z.leb_le; by_evaluation.
  - compute_done.
  - repeat constructor; by eexists.
  - by exists output.
Defined.

(** ** train and predict: what they write and what they raise *)

Section EffectFacts.

Context (W : World).
Implicit Types (st : state W) (p : PosixPath.Path) (ticker : string) (days : Z).

(** The last component of a path of a ticker ends in the suffix. *)
Lemma joinpath_last ticker :
  ∃ x, ∀ p s,
    plain_ticker s = true → (2 ≤ String.length s)%nat →
    last (PosixPath.joinpath p (ticker +:+ s)) = Some (x +:+ s).
Proof.
  destruct (components_app ticker) as (dirs & x & Hc).
  exists x. intros p s Hs Hlen. unfold PosixPath.joinpath.
  rewrite Hc by done.
  destruct (PosixPath.root_of _).
  - by rewrite app_comm_cons, last_snoc.
  - by rewrite app_assoc, last_snoc.
Qed.

Lemma joinpath_suffix_ne p1 p2 ticker s1 s2 :
  plain_ticker s1 = true → (2 ≤ String.length s1)%nat →
  plain_ticker s2 = true → (2 ≤ String.length s2)%nat →
  s1 ≠ s2 →
  PosixPath.joinpath p1 (ticker +:+ s1) ≠ PosixPath.joinpath p2 (ticker +:+ s2).
Proof.
  intros Hs1 Hlen1 Hs2 Hlen2 Hne Heq.
  destruct (joinpath_last ticker) as [x Hlast].
  apply (f_equal last) in Heq. rewrite !Hlast in Heq by done.
  injection Heq as Heq. by apply (inj (String.app x)) in Heq.
Qed.

Lemma model_path_not_image ticker :
  model_path W ticker ≠ plot_path W ticker
  ∧ model_path W ticker ≠ plot_components_path W ticker.
Proof. split; apply joinpath_suffix_ne; first [done | simpl; lia]. Qed.

Lemma write_file_cases p content st :
  (∃ e, write_file W p content st = (Raise e, st))
  ∨ write_file W p content st = (Ok (), set_fs W <[p := content]> st).
Proof.
  unfold write_file.
  destruct (fs st !! p) as [[]|];
    destruct (fs st !! PosixPath.parent p) as [[]|]; eauto.
Qed.

Lemma forecast_and_render_split model ticker days st :
  forecast_and_render W model ticker days st
  = match forecast_for W model days with
    | inl e => (inl e, st)
    | inr forecast =>
        (_ ← savefig W (plot W model forecast) (plot_path W ticker);
         _ ← savefig W (plot_components W model forecast)
               (plot_components_path W ticker);
         mret (PyRecords (Pandas.tail days forecast))) st
    end.
Proof.
  unfold forecast_and_render, forecast_for, mbind at 1 2 3, M_bind, lift,
    mbind, result_bind.
  destruct (Calendar.date_add _ _) as [e|future]; [done|].
  destruct (end_of_grid W _) as [e|end_]; [done|].
  destruct (Pandas.date_range _ _) as [e|dates]; [done|].
  by destruct (prophet_predict W model dates).
Qed.

(** The file system after [predict], whatever its outcome. *)
Lemma predict_fs_cases ticker days st :
  fs (predict W ticker days st).2 = fs st
  ∨ (∃ fig, fs (predict W ticker days st).2
            = <[plot_path W ticker := ImageFile fig]> (fs st))
  ∨ (∃ fig fig', fs (predict W ticker days st).2
                 = <[plot_components_path W ticker := ImageFile fig']>
                     (<[plot_path W ticker := ImageFile fig]> (fs st))).
Proof.
  destruct (fs st !! model_path W ticker) as [[|model|fig]|] eqn:Hfile.
  - left. unfold predict, mbind, M_bind, path_exists, joblib_load.
    rewrite Hfile. rewrite bool_decide_eq_true_2 by eauto.
    cbv beta iota delta [Ok negb]. by rewrite Hfile.
  - rewrite (predict_load _ _ _ _ _ Hfile), forecast_and_render_split.
    destruct (forecast_for W model days) as [e|forecast]; [by left|].
    unfold mbind, M_bind, mret, M_ret, savefig.
    destruct (write_file_cases (plot_path W ticker)
                (ImageFile (plot W model forecast)) st) as [[e ->]| ->];
      [by left|].
    cbv beta iota delta [Ok].
    destruct (write_file_cases (plot_components_path W ticker)
                (ImageFile (plot_components W model forecast))
                (set_fs W <[plot_path W ticker := ImageFile (plot W model forecast)]> st))
      as [[e ->]| ->].
    + right. left. by eexists.
    + right. right. by eexists _, _.
  - left. unfold predict, mbind, M_bind, path_exists, joblib_load.
    rewrite Hfile. rewrite bool_decide_eq_true_2 by eauto.
    cbv beta iota delta [Ok negb]. by rewrite Hfile.
  - left. by rewrite predict_absent.
Qed.

Lemma tail_of_forecast (n days : Z) (forecast : list ForecastRecord) :
  0 ≤ days ≤ n →
  Forall2 (λ d data, data !! "ds" = Some (Timestamp d)) (seqZ START n) forecast →
  Forall2 (λ d data, data !! "ds" = Some (Timestamp d))
    (seqZ (START + n - days) days) (Pandas.tail days forecast).
Proof.
  intros Hdays Hrows.
  pose proof (Forall2_length _ _ _ Hrows) as Hlen. rewrite length_seqZ in Hlen.
  rewrite tail_nonneg by lia.
  replace (seqZ (START + n - days) days)
    with (drop (length forecast - Z.to_nat days) (seqZ START n)).
  - by apply Forall2_drop.
  - rewrite drop_seqZ. f_equal; lia.
Qed.

End EffectFacts.

(** X9. [train] writes all or nothing: either it raises and leaves the
    file system and the output as they were, a previous artifact
    included, or it returns [None] and the one change is the new
    artifact. *)
Theorem train_all_or_nothing (W : World) (ticker : string) (st : state W) :
  (∃ e, train W ticker st = (Raise e, st))
  ∨ (∃ model,
       train W ticker st
       = (Ok PyNone, set_fs W <[model_path W ticker := ModelFile model]> st)).
Proof.
  unfold train, mbind, M_bind, mret, M_ret, lift, joblib_dump.
  destruct (yf_download W ticker _ _) as [e|data]; [left; by eexists|].
  destruct (prophet_fit W (prepare data)) as [e|model]; [left; by eexists|].
  destruct (write_file_cases W (model_path W ticker) (ModelFile model) st)
    as [[e ->]| ->]; [left|right]; by eexists.
Qed.

(** X10. [train] does not create the models directory: when the download
    and the fit succeed but nothing exists at the artifact path nor at
    its parent, [train] raises [FileNotFoundError] and writes nothing. *)
Theorem train_without_models_directory
    (W : World) (ticker : string) (st : state W) data model :
  yf_download W ticker "2020-01-01" (Calendar.strftime_Ymd (TODAY W)) = Ok data →
  prophet_fit W (prepare data) = Ok model →
  fs st !! model_path W ticker = None →
  fs st !! PosixPath.parent (model_path W ticker) = None →
  train W ticker st = (Raise FileNotFoundError, st).
Proof.
  intros Hdata Hmodel Hfile Hdir.
  unfold train, mbind, M_bind, mret, M_ret, lift, joblib_dump, write_file.
  rewrite Hdata. cbv beta iota zeta delta [Ok].
  rewrite Hmodel. cbv beta iota zeta delta [Ok].
  by rewrite Hfile, Hdir.
Qed.

(** MSFT on the checkout without [models]. *)
Lemma train_without_models_directory_witness :
  train Demo.world "MSFT" Scenario.no_models
  = (Raise FileNotFoundError, Scenario.no_models).
Proof.
  apply (train_without_models_directory Demo.world "MSFT" Scenario.no_models
           (Demo.rows 370) Demo.msft_model); [reflexivity..| |]; by_evaluation.
Defined.

(** X11. Whatever its outcome, [predict] prints nothing, changes no path
    but the two image paths of the ticker, and never touches the
    artifact; the file system it leaves is the one it found, or that plus
    the first image, or that plus both images. *)
Theorem predict_changes_images_only
    (W : World) (ticker : string) (days : Z) (st : state W) :
  stdout (predict W ticker days st).2 = stdout st
  ∧ (∀ p, p ≠ plot_path W ticker → p ≠ plot_components_path W ticker →
       fs (predict W ticker days st).2 !! p = fs st !! p)
  ∧ fs (predict W ticker days st).2 !! model_path W ticker
    = fs st !! model_path W ticker
  ∧ (fs (predict W ticker days st).2 = fs st
     ∨ (∃ fig, fs (predict W ticker days st).2
               = <[plot_path W ticker := ImageFile fig]> (fs st))
     ∨ (∃ fig fig', fs (predict W ticker days st).2
                    = <[plot_components_path W ticker := ImageFile fig']>
                        (<[plot_path W ticker := ImageFile fig]> (fs st)))).
Proof.
  assert (∀ p, p ≠ plot_path W ticker → p ≠ plot_components_path W ticker →
            fs (predict W ticker days st).2 !! p = fs st !! p) as Hframe.
  { intros p Hp1 Hp2.
    destruct (predict_fs_cases W ticker days st)
      as [-> |[[fig ->]|(fig & fig' & ->)]];
      by rewrite ?lookup_insert_ne. }
  split_and!.
  - by eapply predict_stdout, surjective_pairing.
  - done.
  - destruct (model_path_not_image W ticker). by apply Hframe.
  - apply predict_fs_cases.
Qed.

(** X12. [predict] does not create the figures directory: when the
    artifact loads and the forecast is computed but nothing exists at the
    first image path nor at its parent, [predict] raises
    [FileNotFoundError] and writes nothing. *)
Theorem predict_without_figures_directory
    (W : World) (ticker : string) (days : Z) (st : state W) model forecast :
  fs st !! model_path W ticker = Some (ModelFile model) →
  forecast_for W model days = Ok forecast →
  fs st !! plot_path W ticker = None →
  fs st !! PosixPath.parent (plot_path W ticker) = None →
  predict W ticker days st = (Raise FileNotFoundError, st).
Proof.
  intros Hfile Hforecast Hplot Hdir.
  rewrite (predict_load _ _ _ _ _ Hfile), forecast_and_render_split, Hforecast.
  cbv beta iota delta [Ok].
  unfold mbind, M_bind, savefig, write_file. by rewrite Hplot, Hdir.
Qed.

(** MSFT, seven days, on the checkout without [figures]. *)
Lemma predict_without_figures_directory_witness :
  predict Demo.world "MSFT" 7 Scenario.no_figures
  = (Raise FileNotFoundError, Scenario.no_figures).
Proof.
  apply (predict_without_figures_directory Demo.world "MSFT" 7 Scenario.no_figures
           Demo.msft_model (Demo.msft_forecast 17)).
  - apply demo_with_artifact_lookup.
  - by_evaluation.
  - unfold Scenario.no_figures.
    destruct (model_path_not_image Demo.world "MSFT") as [Hne _].
    unfold Demo.with_artifact. cbn [fs set_fs]. rewrite lookup_insert_ne by done.
    by_evaluation.
  - unfold Scenario.no_figures, Demo.with_artifact. cbn [fs set_fs].
    rewrite lookup_insert_ne; [by_evaluation|].
    intros Heq. apply (f_equal length) in Heq. vm_compute in Heq. discriminate Heq.
Defined.

(** X13. [predict] is not atomic: when the first image can be written
    and a directory stands at the second image path, [predict] raises
    [IsADirectoryError] and the first image stays written. *)
Theorem predict_keeps_first_image
    (W : World) (ticker : string) (days : Z) (st : state W) model forecast :
  fs st !! model_path W ticker = Some (ModelFile model) →
  forecast_for W model days = Ok forecast →
  writable st (plot_path W ticker) →
  fs st !! plot_components_path W ticker = Some Directory →
  predict W ticker days st
  = (Raise IsADirectoryError,
     set_fs W <[plot_path W ticker := ImageFile (plot W model forecast)]> st).
Proof.
  intros Hfile Hforecast Hplot Hblocked.
  rewrite (predict_load _ _ _ _ _ Hfile), forecast_and_render_split, Hforecast.
  cbv beta iota delta [Ok].
  unfold mbind, M_bind, savefig. rewrite write_file_Ok by done.
  cbv beta iota delta [Ok]. unfold write_file. simpl.
  rewrite lookup_insert_ne by apply image_paths_distinct.
  by rewrite Hblocked.
Qed.

(** MSFT, two days, with a directory in the way of the second image. *)
Lemma predict_keeps_first_image_witness :
  (predict Demo.world "MSFT" 2 Scenario.blocked).1 = Raise IsADirectoryError.
Proof.
  rewrite (predict_keeps_first_image Demo.world "MSFT" 2 Scenario.blocked
             Demo.msft_model (Demo.msft_forecast 12)).
  - reflexivity.
  - unfold Scenario.blocked. cbn [fs set_fs].
    rewrite lookup_insert_ne
      by (apply not_eq_sym, (model_path_not_image Demo.world "MSFT")).
    apply demo_with_artifact_lookup.
  - by_evaluation.
  - destruct demo_image_paths_writable as [[Hfile Hdir] _].
    unfold writable, Scenario.blocked. cbn [fs set_fs].
    rewrite !lookup_insert_ne; [done| |].
    + intros Heq. apply (f_equal length) in Heq. vm_compute in Heq.
      discriminate Heq.
    + apply not_eq_sym, image_paths_distinct.
  - unfold Scenario.blocked. cbn [fs set_fs]. apply lookup_insert_eq.
Defined.

(** X14. A horizon that leads out of the range of [datetime.date], or a
    number of days no [timedelta] holds, makes [predict] raise
    [OverflowError] once the artifact is loaded, with nothing written. *)
Theorem predict_horizon_overflow
    (W : World) (ticker : string) (days : Z) (st : state W) model :
  fs st !! model_path W ticker = Some (ModelFile model) →
  Calendar.MAXORDINAL < TODAY W + days
  ∨ TODAY W + days < Calendar.MINORDINAL
  ∨ Calendar.TIMEDELTA_MAX_DAYS < Z.abs days →
  predict W ticker days st = (Raise OverflowError, st).
Proof.
  intros Hfile Hout.
  rewrite (predict_load _ _ _ _ _ Hfile), forecast_and_render_split.
  unfold forecast_for, Calendar.date_add.
  destruct (_ && _) eqn:Hin; [|done].
  apply andb_prop in Hin as [[Habs Hlo]%andb_prop Hhi].
  apply Z.leb_le in Habs, Hlo, Hhi. lia.
Qed.

(** Ten million days from the tenth of January 2020. *)
Lemma predict_horizon_overflow_witness :
  predict Demo.world "MSFT" 10000000 Demo.trained_msft
  = (Raise OverflowError, Demo.trained_msft).
Proof.
  apply (predict_horizon_overflow Demo.world "MSFT" 10000000 Demo.trained_msft
           Demo.msft_model).
  - apply demo_with_artifact_lookup.
  - left. apply Z.ltb_lt. by_evaluation.
Defined.

(** ** The horizon *)

(** X15. With a horizon of zero days [predict] still loads the model,
    computes the forecast and writes both images, and what it returns is
    the empty list: a run of the script that succeeds prints the empty
    mapping. *)
Theorem main_with_zero_days (W : World) (symbol : string) (st st' : state W) :
  main W {| ticker := symbol; days := 0 |} st = (Ok (), st') →
  stdout st' = stdout st ++ [Dict.empty]
  ∧ ∃ model forecast,
      forecast_for W model 0 = Ok forecast
      ∧ fs st' = <[plot_components_path W symbol
                   := ImageFile (plot_components W model forecast)]>
                   (<[plot_path W symbol := ImageFile (plot W model forecast)]>
                      (<[model_path W symbol := ModelFile model]> (fs st))).
Proof.
  rewrite main_unfold. cbn [ticker days].
  destruct (train W symbol st) as [[e|r] st1] eqn:Htrain; [done|].
  apply train_inv in Htrain as (data & model & _ & _ & _ & -> & ->).
  rewrite (predict_load W _ _ _ model) by apply lookup_insert_eq.
  destruct (forecast_and_render W model symbol 0 _) as [[e|r] st2] eqn:Hrender;
    [done|].
  apply forecast_and_render_inv
    in Hrender as (end_ & forecast & Hfuture & Hend & Hdates & Hforecast & _ & -> & ->).
  cbn. intros [= <-]. split; [done|].
  exists model, forecast. split; [|done].
  unfold forecast_for. rewrite Hfuture, result_bind_Ok, Hend, result_bind_Ok, Hdates.
  by rewrite result_bind_Ok.
Qed.

(** A run of the script for MSFT on the fresh checkout. *)
Lemma demo_main_msft (n : Z) (output : PredictionMap) :
  -9 ≤ n ≤ 9 →
  convert (PyRecords (Pandas.tail n (Demo.msft_forecast (n + 10)))) = Ok output →
  ∃ st',
    main Demo.world {| ticker := "MSFT"; days := n |} Demo.fresh = (Ok (), st')
    ∧ stdout st' = [output].
Proof.
  intros Hn Hconvert. eexists. rewrite main_unfold. cbn [ticker days].
  rewrite demo_train_msft by by apply demo_fresh_writable.
  cbv beta iota delta [Ok]. fold Demo.trained_msft.
  rewrite demo_predict_msft by done.
  cbv beta iota delta [Ok]. rewrite Hconvert. done.
Qed.

(** MSFT with [--days 0] on the fresh checkout. *)
Lemma main_with_zero_days_witness :
  ∃ st',
    main Demo.world {| ticker := "MSFT"; days := 0 |} Demo.fresh = (Ok (), st')
    ∧ stdout st' = stdout Demo.fresh ++ [Dict.empty].
Proof.
  destruct (demo_main_msft 0 Dict.empty) as (st' & Hrun & _); [lia|reflexivity|].
  exists st'. split; [done|].
  by destruct (main_with_zero_days Demo.world "MSFT" Demo.fresh st' Hrun).
Defined.

(** X16. A negative horizon is not refused: with the artifact in place,
    the grid not empty and Prophet returning one row per date of that
    grid for the stored model, [predict] succeeds and returns the
    forecast without its first [|days|] rows, dated from [|days|] days
    after the start date to [|days|] days before today, none of them in
    the future. *)
Theorem predict_negative_horizon_returns_history
    (W : World) (ticker : string) (days : Z) (st : state W) model :
  days < 0 →
  START ≤ TODAY W + days →
  TODAY W ≤ Pandas.TIMESTAMP_MAX →
  fs st !! model_path W ticker = Some (ModelFile model) →
  prophet_contract W model (seqZ START (TODAY W + days - START + 1)) →
  writable st (plot_path W ticker) →
  writable st (plot_components_path W ticker) →
  ∃ forecast st',
    forecast_for W model days = Ok forecast
    ∧ predict W ticker days st
      = (Ok (PyRecords (drop (Z.to_nat (- days)) forecast)), st')
    ∧ Forall2 (λ d data, data !! "ds" = Some (Timestamp d))
        (seqZ (START - days) (TODAY W + 2 * days - START + 1))
        (drop (Z.to_nat (- days)) forecast)
    ∧ Forall (λ d, d ≤ TODAY W + days)
        (seqZ (START - days) (TODAY W + 2 * days - START + 1)).
Proof.
  intros Hneg Hgrid Htoday Hfile Hprophet Hw1 Hw2.
  assert (START = 737425) as Hs by reflexivity.
  assert (Pandas.TIMESTAMP_MAX = 825914) as Hm by reflexivity.
  assert (Calendar.date_add (TODAY W) days = Ok (TODAY W + days)) as Hfuture.
  { unfold Calendar.date_add, Calendar.TIMEDELTA_MAX_DAYS, Calendar.MINORDINAL,
      Calendar.MAXORDINAL. by leb_true. }
  assert (end_of_grid W (TODAY W + days) = Ok (TODAY W + days)) as Hend
    by (apply end_of_grid_in_range; lia).
  assert (Pandas.date_range START (TODAY W + days)
          = Ok (seqZ START (TODAY W + days - START + 1))) as Hdates
    by (apply date_range_in_range; lia).
  destruct Hprophet as (forecast & Hforecast & Hrows).
  exists forecast. eexists. split_and!.
  - unfold forecast_for. rewrite Hfuture, result_bind_Ok, Hend, result_bind_Ok, Hdates.
    by rewrite result_bind_Ok.
  - rewrite (predict_load W _ _ _ model Hfile).
    rewrite (forecast_and_render_Ok W model ticker days st forecast) by done.
    unfold Pandas.tail.
    rewrite (proj2 (Z.eqb_neq days 0)), (proj2 (Z.ltb_ge 0 days)) by lia.
    reflexivity.
  - replace (seqZ (START - days) (TODAY W + 2 * days - START + 1))
      with (drop (Z.to_nat (- days)) (seqZ START (TODAY W + days - START + 1))).
    + by apply Forall2_drop.
    + rewrite drop_seqZ. f_equal; lia.
  - apply Forall_seqZ. intros d Hd. lia.
Qed.

(** MSFT with [--days -1], ten days after the start date. *)
Lemma predict_negative_horizon_returns_history_witness :
  ∃ forecast st',
    predict Demo.world "MSFT" (-1) Demo.trained_msft
    = (Ok (PyRecords (drop 1 forecast)), st')
    ∧ Forall2 (λ d (data : ForecastRecord), data !! "ds" = Some (Timestamp d))
        (seqZ (START + 1) 8) (drop 1 forecast).
Proof.
  destruct (predict_negative_horizon_returns_history Demo.world "MSFT" (-1)
              Demo.trained_msft Demo.msft_model)
    as (forecast & st' & _ & Hrun & Hrows & _).
  - lia.
  - apply Z.leb_le. by_evaluation.
  - apply Z.leb_le. by_evaluation.
  - apply demo_with_artifact_lookup.
  - by apply demo_prophet_contract.
  - apply demo_image_paths_writable.
  - apply demo_image_paths_writable.
  - exists forecast, st'. split; [exact Hrun|exact Hrows].
Defined.

(** ** The entry point, further *)

(** X17. A run that ends in an exception has printed nothing. *)
Theorem main_failure_prints_nothing
    (W : World) (args : Namespace) (st st' : state W) (e : exn) :
  main W args st = (Raise e, st') → stdout st' = stdout st.
Proof.
  rewrite main_unfold.
  destruct (train W (ticker args) st) as [[e1|r] st1] eqn:Htrain.
  - intros [= _ <-]. by eapply train_stdout.
  - destruct (predict W (ticker args) (days args) st1)
      as [[e2|prediction_list] st2] eqn:Hpredict; cbv beta iota.
    + intros [= _ <-].
      by rewrite (predict_stdout _ _ _ _ _ _ Hpredict), (train_stdout _ _ _ _ _ Htrain).
    + destruct (convert prediction_list) as [e3|output]; [|done].
      intros [= _ <-].
      by rewrite (predict_stdout _ _ _ _ _ _ Hpredict), (train_stdout _ _ _ _ _ Htrain).
Qed.

Lemma demo_train_unknown (st : state Demo.world) :
  train Demo.world "NOPE" st = (Raise ValueError, st).
Proof. reflexivity. Qed.

(** A symbol the download does not know: the fit raises. *)
Lemma main_failure_prints_nothing_witness :
  main Demo.world {| ticker := "NOPE"; days := 7 |} Demo.fresh
  = (Raise ValueError, Demo.fresh)
  ∧ stdout Demo.fresh = stdout Demo.fresh.
Proof.
  assert (main Demo.world {| ticker := "NOPE"; days := 7 |} Demo.fresh
          = (Raise ValueError, Demo.fresh)) as Hrun.
  { rewrite main_unfold. cbn [ticker days]. by rewrite demo_train_unknown. }
  split; [done|].
  apply (main_failure_prints_nothing Demo.world _ Demo.fresh Demo.fresh _ Hrun).
Defined.

Lemma Forall2_and_right {A B} (P : A → B → Prop) (Q : B → Prop)
    (l : list A) (k : list B) :
  Forall2 P l k → Forall Q k → Forall2 (λ x y, P x y ∧ Q y) l k.
Proof.
  intros HP. induction HP as [|x y l k Hxy _ IH]; intros HQ; [constructor|].
  apply Forall_cons in HQ as [Hy HQ]. constructor; [done|by apply IH].
Qed.

Lemma demo_rows_have_trend (model : Model Demo.world) (dates : list Z) :
  prophet_rows_have_trend Demo.world model dates.
Proof.
  intros forecast. change (prophet_predict Demo.world) with Demo.forecast.
  assert (∀ l, Forall (λ data : ForecastRecord, is_Some (data !! "trend"))
                 (Demo.forecast_row model <$> l)) as Hall.
  { intros l. induction l as [|x l IH]; [constructor|].
    rewrite fmap_cons. apply Forall_cons_2; [|exact IH].
    unfold Demo.forecast_row.
    rewrite lookup_insert_ne by done. rewrite lookup_singleton_eq. by eexists. }
  unfold Demo.forecast. destruct dates as [|d dates]; [done|].
  intros [= <-]. apply (Hall (d :: dates)).
Qed.

(** X18. Train, predict, convert and print, end to end: for a horizon
    that is not negative and stays within the days a pandas timestamp can
    hold, when the download and the fit succeed, Prophet returns one row
    with a trend per date of the grid for the fitted model, and the
    artifact and the two images can be written, the script succeeds and
    prints one mapping with exactly [days] entries, keyed by the
    formatted days from tomorrow to [today + days] in that order. *)
Theorem main_prints_the_horizon
    (W : World) (args : Namespace) (st : state W) data model :
  START ≤ TODAY W →
  0 ≤ days args →
  TODAY W + days args ≤ Pandas.TIMESTAMP_MAX →
  yf_download W (ticker args) "2020-01-01" (Calendar.strftime_Ymd (TODAY W))
  = Ok data →
  prophet_fit W (prepare data) = Ok model →
  prophet_contract W model (seqZ START (TODAY W + days args - START + 1)) →
  prophet_rows_have_trend W model (seqZ START (TODAY W + days args - START + 1)) →
  writable st (model_path W (ticker args)) →
  writable st (plot_path W (ticker args)) →
  writable st (plot_components_path W (ticker args)) →
  ∃ st' output,
    main W args st = (Ok (), st')
    ∧ stdout st' = stdout st ++ [output]
    ∧ Dict.keys output = Calendar.strftime_mdY <$> seqZ (TODAY W + 1) (days args)
    ∧ length output = Z.to_nat (days args).
Proof.
  intros Hstart Hdays Hmax Hdata Hmodel Hprophet Htrend Hw Hw1 Hw2.
  assert (START = 737425) as Hs by reflexivity.
  assert (Pandas.TIMESTAMP_MAX = 825914) as Hm by reflexivity.
  assert (Pandas.TIMESTAMP_MIN = 612412) as Hn by reflexivity.
  set (n := TODAY W + days args - START + 1) in *.
  destruct Hprophet as (forecast & Hforecast & Hrows).
  pose proof (Forall2_length _ _ _ Hrows) as Hlen. rewrite length_seqZ in Hlen.
  set (rows := Pandas.tail (days args) forecast).
  assert (Forall2 (λ d data, data !! "ds" = Some (Timestamp d)
                             ∧ is_Some (data !! "trend"))
            (seqZ (TODAY W + 1) (days args)) rows) as Hgood.
  { apply Forall2_and_right.
    - replace (TODAY W + 1) with (START + n - days args) by lia.
      apply tail_of_forecast; [lia|done].
    - unfold rows. rewrite tail_nonneg by done.
      apply Forall_drop. by eapply Htrend. }
  destruct (convert_distinct_days_keys (seqZ (TODAY W + 1) (days args)) rows)
    as (output & Hconvert & Hkeys & _ & Hcount); [| |done|].
  { apply Forall_seqZ. intros d Hd. unfold timestamp_day. lia. }
  { apply NoDup_seqZ. }
  eexists _, output. split_and!; [| |done|].
  - rewrite main_unfold, (train_Ok W _ st data model) by done.
    cbv beta iota delta [Ok].
    rewrite (predict_load W _ _ _ model) by apply lookup_insert_eq.
    rewrite (forecast_and_render_Ok W model _ _ _ forecast);
      [|by apply date_add_in_range|by apply end_of_grid_in_range; lia
       |by apply date_range_in_range; lia|done
       |by apply writable_after_write..].
    cbv beta iota delta [Ok]. fold rows. by rewrite Hconvert.
  - done.
  - rewrite Hcount. unfold rows. apply tail_length; lia.
Qed.

(** MSFT with [--days 2] on the fresh checkout. *)
Lemma main_prints_the_horizon_witness :
  ∃ st' output,
    main Demo.world {| ticker := "MSFT"; days := 2 |} Demo.fresh = (Ok (), st')
    ∧ stdout st' = [output]
    ∧ Dict.keys output = ["01/11/2020"; "01/12/2020"].
Proof.
  destruct (main_prints_the_horizon Demo.world {| ticker := "MSFT"; days := 2 |}
              Demo.fresh (Demo.rows 370) Demo.msft_model)
    as (st' & output & Hrun & Hout & Hkeys & _).
  - apply Z.leb_le. by_evaluation.
  - cbn. lia.
  - apply Z.leb_le. by_evaluation.
  - reflexivity.
  - reflexivity.
  - by apply demo_prophet_contract.
  - apply demo_rows_have_trend.
  - by apply demo_fresh_writable.
  - apply writable_absent; by_evaluation.
  - apply writable_absent; by_evaluation.
  - exists st', output. split_and!; [exact Hrun|exact Hout|exact Hkeys].
Defined.

(** ** Tickers and paths, further *)

(** X19. Training one ticker does not make [predict] succeed for
    another: for two different tickers without ["/"], if the second had
    no artifact before [train] of the first, [predict] of the second
    still returns [False] afterwards and changes nothing. *)
Theorem train_leaves_other_ticker_untrained
    (W : World) (ticker other : string) (days : Z) (st st1 : state W) :
  plain_ticker ticker = true →
  plain_ticker other = true →
  other ≠ ticker →
  fs st !! model_path W other = None →
  train W ticker st = (Ok PyNone, st1) →
  predict W other days st1 = (Ok (PyBool false), st1).
Proof.
  intros Hplain Hother Hne Hnone (data & model & _ & _ & _ & -> & _)%train_inv.
  apply predict_absent. cbn [fs set_fs].
  rewrite lookup_insert_ne; [done|].
  intros Heq. apply Hne. symmetry.
  apply (joinpath_plain_inj (MODEL_DIR W) _ _ ".joblib");
    first [done | simpl; lia].
Qed.

(** Train MSFT on the fresh checkout, then predict AAPL. *)
Lemma train_leaves_other_ticker_untrained_witness :
  predict Demo.world "AAPL" 7 Demo.trained_msft
  = (Ok (PyBool false), Demo.trained_msft).
Proof.
  apply (train_leaves_other_ticker_untrained Demo.world "MSFT" "AAPL" 7 Demo.fresh);
    [reflexivity|reflexivity|done| |].
  - by_evaluation.
  - apply demo_train_msft. by apply demo_fresh_writable.
Defined.

(** Unfold [root_of] on a segment that begins with ["/"]. *)
Ltac root_of_slash :=
  cbv [String.append]; unfold PosixPath.root_of;
  change (Ascii.eqb PosixPath.slash PosixPath.slash) with true; cbv iota.

(** X20. A ticker that begins with ["/"] leaves the two directories: its
    artifact path and its two image paths all start at the same root of
    the file system, ["/"] or ["//"], followed by the components of the
    ticker with the suffix, and none of them depends on where the script
    is installed. *)
Theorem absolute_ticker_ignores_base_dir (W W' : World) (rest : string) :
  ∃ root,
    (root = "/" ∨ root = "//")
    ∧ model_path W (String PosixPath.slash rest)
      = root :: PosixPath.components (String PosixPath.slash rest +:+ ".joblib")
    ∧ plot_path W (String PosixPath.slash rest)
      = root :: PosixPath.components (String PosixPath.slash rest +:+ "_plot.png")
    ∧ plot_components_path W (String PosixPath.slash rest)
      = root :: PosixPath.components
                  (String PosixPath.slash rest +:+ "_plot_components.png")
    ∧ model_path W (String PosixPath.slash rest)
      = model_path W' (String PosixPath.slash rest)
    ∧ plot_path W (String PosixPath.slash rest)
      = plot_path W' (String PosixPath.slash rest)
    ∧ plot_components_path W (String PosixPath.slash rest)
      = plot_components_path W' (String PosixPath.slash rest).
Proof.
  assert (∃ root,
            (root = "/" ∨ root = "//")
            ∧ ∀ c s, Ascii.eqb c PosixPath.slash = false →
                PosixPath.root_of (String PosixPath.slash rest +:+ String c s)
                = Some root) as (root & Hroot & Hsegment).
  { destruct rest as [|c2 [|c3 tail]].
    - exists "/". split; [by left|]. intros c s Hc. root_of_slash. by rewrite Hc.
    - destruct (Ascii.eqb c2 PosixPath.slash) eqn:Hc2.
      + exists "//". split; [by right|]. intros c s Hc. root_of_slash.
        by rewrite Hc2, Hc.
      + exists "/". split; [by left|]. intros c s Hc. root_of_slash.
        by rewrite Hc2.
    - destruct (Ascii.eqb c2 PosixPath.slash) eqn:Hc2;
        [destruct (Ascii.eqb c3 PosixPath.slash) eqn:Hc3|].
      + exists "/". split; [by left|]. intros c s Hc. root_of_slash.
        by rewrite Hc2, Hc3.
      + exists "//". split; [by right|]. intros c s Hc. root_of_slash.
        by rewrite Hc2, Hc3.
      + exists "/". split; [by left|]. intros c s Hc. root_of_slash.
        by rewrite Hc2. }
  exists root. split; [exact Hroot|].
  unfold model_path, plot_path, plot_components_path, PosixPath.joinpath.
  rewrite (Hsegment "."%char "joblib"), (Hsegment "_"%char "plot.png"),
    (Hsegment "_"%char "plot_components.png") by reflexivity.
  by split_and!.
Qed.
